(** * stock-dashboard: the chart-dataset derivation and the series fetcher

    A shallow embedding of
    - [StockChart] (the component rendered by [app/page.tsx]): the memoised
      [chartData] and [options] values, the chart-synchronising effect and the
      render result;
    - [utils/yahooFinance]: [fetchStockData], which aligns the per-symbol
      series on the sorted union of their dates.

    JavaScript numbers are IEEE 754 binary64 values; they are modelled by
    [spec_float] with precision 53 and exponent bound 1024, so that a division
    by zero yields an infinity or NaN exactly as it does at run time.  [null]
    and [undefined] are modelled by [None]. *)

From Stdlib Require Import ZArith Ascii Floats.SpecFloat.
From stdpp Require Import base option list strings sorting gmap.

(** ** JavaScript numbers *)

Module Number.

#[local] Open Scope Z_scope.

Definition prec : Z := 53.
Definition emax : Z := 1024.

Definition number : Type := spec_float.

Definition NaN : number := S754_nan.

(** The number denoted by an integer literal. *)
Definition of_Z (z : Z) : number := binary_normalize prec emax z 0 false.

Definition sub (a b : number) : number := SFsub prec emax a b.
Definition mul (a b : number) : number := SFmul prec emax a b.
Definition div (a b : number) : number := SFdiv prec emax a b.

(** The number denoted by the decimal literal [n / 10 ^ k]: the quotient of
    two integers that binary64 holds exactly is rounded once, to the nearest
    number, as the literal is. *)
Definition of_decimal (n k : Z) : number := div (of_Z n) (of_Z (10 ^ k)).

(** [a >= b] and [a <= b]: false as soon as one side is NaN. *)
Definition ge (a b : number) : bool :=
  match SFcompare a b with
  | Some Gt | Some Eq => true
  | _ => false
  end.

Definition le (a b : number) : bool :=
  match SFcompare a b with
  | Some Lt | Some Eq => true
  | _ => false
  end.

(** [a < b], used to say that a day lies before or after another one. *)
Definition lt (a b : number) : bool :=
  match SFcompare a b with
  | Some Lt => true
  | _ => false
  end.

Definition isNaN (a : number) : bool :=
  match a with
  | S754_nan => true
  | _ => false
  end.

(** [Number.isFinite]: neither NaN nor an infinity. *)
Definition isFinite (a : number) : bool :=
  match a with
  | S754_zero _ | S754_finite _ _ _ => true
  | S754_infinity _ | S754_nan => false
  end.

(** Both zeros of binary64. *)
Definition isZero (a : number) : bool :=
  match a with
  | S754_zero _ => true
  | _ => false
  end.

(** [Math.floor]. *)
Definition floor (a : number) : number :=
  match a with
  | S754_finite s m e =>
      if 0 <=? e then a
      else of_Z (cond_Zopp s (Zpos m) / 2 ^ (- e))
  | _ => a
  end.

(** The values that binary64 holds: a finite number has its mantissa of at
    most 53 bits in canonical position.  Every number of a run is one. *)
Definition valid (a : number) : bool := valid_binary prec emax a.


End Number.

Export Number(number).

(** ** Dates

    [new Date(s).getTime()] is a function of the string alone: the time value
    in milliseconds, or NaN for a string that is not a date.  The components
    are parametric in it. *)

Class DateParser := getTime : string → number.

(** The date-only ISO form [YYYY-MM-DD], which ECMAScript reads as midnight
    UTC of that day; every other string is taken to be an invalid date. *)

Module IsoDate.

#[local] Open Scope Z_scope.

Definition digit (c : Ascii.ascii) : option Z :=
  let n := Z.of_N (Ascii.N_of_ascii c) in
  if (48 <=? n) && (n <=? 57) then Some (n - 48) else None.

Definition isLeapYear (y : Z) : bool :=
  ((y mod 4 =? 0) && negb (y mod 100 =? 0)) || (y mod 400 =? 0).

Definition daysInMonth (y m : Z) : Z :=
  if m =? 2 then (if isLeapYear y then 29 else 28)
  else if (m =? 4) || (m =? 6) || (m =? 9) || (m =? 11) then 30
  else 31.

(** Days between 1970-01-01 and the given day of the proleptic Gregorian
    calendar. *)
Definition daysFromCivil (y m d : Z) : Z :=
  let y' := if m <=? 2 then y - 1 else y in
  let era := y' / 400 in
  let yoe := y' - era * 400 in
  let mp := if 2 <? m then m - 3 else m + 9 in
  let doy := (153 * mp + 2) / 5 + d - 1 in
  let doe := yoe * 365 + yoe / 4 - yoe / 100 + doy in
  era * 146097 + doe - 719468.

Definition msPerDay : Z := 86400000.

Definition parse (s : string) : option Z :=
  match s with
  | String y1 (String y2 (String y3 (String y4 (String sep1
      (String m1 (String m2 (String sep2 (String d1 (String d2 EmptyString))))))))) =>
      if negb (Ascii.eqb sep1 "-"%char && Ascii.eqb sep2 "-"%char) then None else
      a ← digit y1; b ← digit y2; c ← digit y3; d ← digit y4;
      e ← digit m1; f ← digit m2; g ← digit d1; h ← digit d2;
      let y := 1000 * a + 100 * b + 10 * c + d in
      let m := 10 * e + f in
      let dd := 10 * g + h in
      if (1 <=? m) && (m <=? 12) && (1 <=? dd) && (dd <=? daysInMonth y m)
      then Some (daysFromCivil y m dd * msPerDay)
      else None
  | _ => None
  end.

Definition getTime (s : string) : number :=
  match parse s with
  | Some ms => Number.of_Z ms
  | None => Number.NaN
  end.

End IsoDate.

(** ** The data contract between the fetcher and the chart

    [interface StockDataPoint { date: string; close: number | null }],
    declared with the same shape by the chart component and by
    [utils/yahooFinance]. *)

Record StockDataPoint := {
  date : string;
  close : option number;
}.

(** ** StockChart *)

Module StockChart.

(** [type ChartPoint = ScatterDataPoint & { x; y; originalY }] *)
Record ChartPoint := {
  x : number;
  y : option number;
  originalY : option number;
}.

(** One entry of [datasets].  [label] is [symbols[index]], which is
    [undefined] past the end of [symbols].  The styling fields that are
    formatted strings ([borderColor], [backgroundColor]) are left out. *)
Record Dataset := {
  label : option string;
  data : list ChartPoint;
  borderDash : list number;
  pointRadius : number;
  borderWidth : number;
  fill : bool;
  yAxisID : string;
  tension : number;
}.

Record ChartData := {
  labels : list string;
  datasets : list Dataset;
}.

Definition notNull {A : Type} (v : option A) : bool :=
  match v with
  | Some _ => true
  | None => false
  end.

Section chartData.
Context `{DateParser}.

(** The predicate of [stockData.filter]: a present close and a timestamp
    inside the window. *)
Definition inWindow (startTimestamp endTimestamp : number)
    (point : StockDataPoint) : bool :=
  let pointTimestamp := getTime (date point) in
  notNull (close point)
  && Number.ge pointTimestamp startTimestamp
  && Number.le pointTimestamp endTimestamp.

(** [((point.close - baseValue) / baseValue) * 100] *)
Definition percentChange (price baseValue : number) : number :=
  Number.mul (Number.div (Number.sub price baseValue) baseValue)
             (Number.of_Z 100).

(** The callback of [validData.map]. *)
Definition toChartPoint (isExchangeRate : bool) (baseValue : number)
    (point : StockDataPoint) : ChartPoint :=
  {| x := getTime (date point);
     y := match close point with
          | Some c =>
              Some (if isExchangeRate then c else percentChange c baseValue)
          | None => None
          end;
     originalY := close point |}.

(** The callback of [data.map]. *)
Definition toDataset (symbols : list string)
    (startTimestamp endTimestamp : number)
    (index : nat) (stockData : list StockDataPoint) : Dataset :=
  let symbol := symbols !! index in
  let isExchangeRate := bool_decide (symbol = Some "USDJPY=X") in
  let validData :=
    List.filter (inWindow startTimestamp endTimestamp) stockData in
  let firstValidPoint := validData !! 0 in
  let baseValue :=
    if isExchangeRate then Number.of_Z 1
    else default (Number.of_Z 0) (firstValidPoint ≫= close) in
  {| label := symbol;
     data := List.filter (λ point, notNull (y point))
               (toChartPoint isExchangeRate baseValue <$> validData);
     borderDash := [];
     pointRadius := Number.of_Z 0;
     borderWidth := if isExchangeRate then Number.of_decimal 5 1
                    else Number.of_Z 1;
     fill := false;
     yAxisID := if isExchangeRate then "y-exchange" else "y-percent";
     tension := Number.of_decimal 3 1 |}.

Definition chartData (data : list (list StockDataPoint))
    (symbols : list string) (startDate endDate : string) : ChartData :=
  if (length data =? 0) || (length symbols =? 0) then
    {| labels := []; datasets := [] |}
  else
    let startTimestamp := getTime startDate in
    let endTimestamp := getTime endDate in
    {| labels := [];
       datasets := imap (toDataset symbols startTimestamp endTimestamp) data |}.

End chartData.

(** [options.plugins.zoom.limits.x] *)
Record AxisLimits := {
  limits_min : number;
  limits_max : number;
  minRange : number;
}.

(** [options.plugins.zoom] *)
Record ZoomOptions := {
  pan_enabled : bool;
  pan_mode : string;
  wheel_enabled : bool;
  pinch_enabled : bool;
  zoom_mode : string;
  limits_x : AxisLimits;
}.

(** [options.scales.x] *)
Record TimeScaleOptions := {
  scale_type : string;
  time_unit : string;
  scale_min : number;
  scale_max : number;
}.

(** [options.scales['y-percent']] and [options.scales['y-exchange']] *)
Record LinearScaleOptions := {
  axis_type : string;
  axis_display : bool;
  axis_position : string;
  axis_title : string;
  axis_color : string;
}.

(** The part of [options] that does not format text: the tooltip and tick
    callbacks are left out.  The value axes are listed under their keys, in
    the order of the object literal. *)
Record ChartOptions := {
  responsive : bool;
  maintainAspectRatio : bool;
  animation_duration : number;
  legend_labels_color : string;
  title_text : string;
  tooltip_enabled : bool;
  zoom : ZoomOptions;
  scales_x : TimeScaleOptions;
  scales_y : list (string * LinearScaleOptions);
}.

Section options.
Context `{DateParser}.

Definition options (isDarkMode : bool) (startDate endDate : string)
    (showTooltip : bool) : ChartOptions :=
  {| responsive := true;
     maintainAspectRatio := false;
     animation_duration := Number.of_Z 0;
     legend_labels_color := if isDarkMode then "#fff" else "#666";
     title_text := "Stock Price and Exchange Rate Comparison";
     tooltip_enabled := showTooltip;
     zoom :=
       {| pan_enabled := true;
          pan_mode := "x";
          wheel_enabled := true;
          pinch_enabled := true;
          zoom_mode := "x";
          limits_x :=
            {| limits_min := getTime startDate;
               limits_max := getTime endDate;
               minRange := Number.of_Z 86400000 |} |};
     scales_x :=
       {| scale_type := "time";
          time_unit := "day";
          scale_min := getTime startDate;
          scale_max := getTime endDate |};
     scales_y :=
       [ ("y-percent",
          {| axis_type := "linear";
             axis_display := true;
             axis_position := "right";
             axis_title := "Percent Change";
             axis_color := if isDarkMode then "#fff" else "#666" |});
         ("y-exchange",
          {| axis_type := "linear";
             axis_display := true;
             axis_position := "left";
             axis_title := "USD/JPY Exchange Rate";
             axis_color := if isDarkMode then "#fff" else "#666" |}) ] |}.

End options.


(** The chart instance held by [chartRef]: the data and options it was last
    given, and the modes of the [update] calls made on it, oldest first. *)
Record ChartInstance := {
  instance_data : ChartData;
  instance_options : ChartOptions;
  instance_updates : list string;
}.

(** The effect with dependencies [chartData] and [options]: it writes both
    into the instance and redraws without animation, when there is one. *)
Definition syncChart (chartRef : option ChartInstance) (cd : ChartData)
    (opts : ChartOptions) : option ChartInstance :=
  match chartRef with
  | Some chart =>
      Some {| instance_data := cd;
              instance_options := opts;
              instance_updates := instance_updates chart ++ ["none"] |}
  | None => None
  end.

(** What the component returns: the message, or the container with the
    [Chart] element and the props it is given. *)
Inductive Element :=
| NoDataMessage (text : string)
| ChartContainer (height backgroundColor : string)
    (chart_data : ChartData) (chart_options : ChartOptions).

Section render.
Context `{DateParser}.

(** The component body, for the props [data], [symbols], [startDate],
    [endDate], [showTooltip] and the state [chartHeight], [isDarkMode]. *)
Definition render (data : list (list StockDataPoint)) (symbols : list string)
    (startDate endDate : string) (showTooltip : bool)
    (chartHeight : string) (isDarkMode : bool) : Element :=
  let cd := chartData data symbols startDate endDate in
  let opts := options isDarkMode startDate endDate showTooltip in
  if (length data =? 0) || (length symbols =? 0) then
    NoDataMessage "No data available to display"
  else
    ChartContainer chartHeight (if isDarkMode then "#333" else "#fff") cd opts.

End render.

End StockChart.

(** ** utils/yahooFinance *)

Module YahooFinance.

(** What [fetchStockData] takes from its environment: the time value of
    [extendedStartDate] (the clock, thirty years back) and, for each call of
    [fetchSingleStockData], numbered in the order of [symbols.map], the value
    it resolves to; it catches its own errors and then resolves to the empty
    series.  Two calls for one symbol need not resolve to the same series. *)
Class Upstream := {
  extendedStartDate_getTime : number;
  fetchSingleStockData : nat → string → number → number → list StockDataPoint;
}.

(** [new Map(entries)]: a later entry replaces an earlier one with its key. *)
Definition Map_new {V : Type} (entries : list (string * V)) : gmap string V :=
  foldl (λ m entry, <[entry.1 := entry.2]> m) ∅ entries.

(** [results.forEach(data => data.forEach(point => allDates.add(point.date)))] *)
Definition collectDates (results : list (list StockDataPoint)) : gset string :=
  foldl (λ allDates data,
           foldl (λ allDates point, {[date point]} ∪ allDates) allDates data)
        ∅ results.

(** [Array.from(allDates).sort()]: the default order of [sort] on strings is
    the lexicographic one on code units.  The order in which the set lists its
    elements is lost by the sort. *)
Definition sortDates (allDates : gset string) : list string :=
  merge_sort String.le (elements allDates).

(** The callback of [results.map]. *)
Definition alignSeries (sortedDates : list string)
    (data : list StockDataPoint) : list StockDataPoint :=
  let dataMap := Map_new ((λ point, (date point, close point)) <$> data) in
  (λ d, {| date := d; close := mjoin (dataMap !! d) |}) <$> sortedDates.

Section fetchStockData.
Context `{DateParser} `{Upstream}.

(** The body of the [try] block; nothing in it throws, so the [catch] branch
    that returns the empty list is never taken. *)
Definition fetchStockData (symbols : list string)
    (startDate endDate : string) : list (list StockDataPoint) :=
  let endTimestamp :=
    Number.floor (Number.div (getTime endDate) (Number.of_Z 1000)) in
  let startTimestamp :=
    Number.floor (Number.div extendedStartDate_getTime (Number.of_Z 1000)) in
  let results :=
    imap (λ call symbol,
            fetchSingleStockData call symbol startTimestamp endTimestamp)
         symbols in
  let allDates := collectDates results in
  let sortedDates := sortDates allDates in
  alignSeries sortedDates <$> results.

End fetchStockData.

End YahooFinance.

(** ** The arrays and objects behind [chartData]

    The props of the component are references into the JavaScript heap: [data]
    is an array of arrays of point objects, [symbols] an array of strings.
    [Array.prototype.filter] and [Array.prototype.map] read their receiver and
    allocate the array they return; the array returned by the first [filter]
    shares its point objects with the prop.  The derivation is written here
    over an explicit heap, to say what it reads, what it allocates and that it
    writes to nothing that existed before. *)

Module Heap.

Import StockChart.

Abbreviation loc := nat (only parsing).

(** A dataset object: as [Dataset], with its [data] array by reference. *)
Record DatasetObject := {
  label : option string;
  data : loc;
  borderDash : list number;
  pointRadius : number;
  borderWidth : number;
  fill : bool;
  yAxisID : string;
  tension : number;
}.

(** The object returned by the [useMemo] callback. *)
Record ChartDataObject := {
  labels : loc;
  datasets : loc;
}.

Inductive object :=
| PointObject (point : StockDataPoint)
| SeriesArray (points : list loc)
| DataArray (series : list loc)
| SymbolsArray (symbols : list string)
| LabelsArray (labels : list string)
| PointsArray (points : list ChartPoint)
| DatasetsArray (datasets : list DatasetObject).

Abbreviation heap := (gmap loc object) (only parsing).

(** Computations on the heap; [None] is a read through a reference that does
    not hold an object of the expected kind. *)
Definition M (A : Type) : Type := heap → option (A * heap).

#[export] Instance M_ret : MRet M := λ A a h, Some (a, h).

#[export] Instance M_bind : MBind M := λ A B f m h,
  match m h with
  | Some (a, h') => f a h'
  | None => None
  end.

Definition failM {A : Type} : M A := λ _, None.

(** An array or object literal: a new object at an unused address. *)
Definition alloc (o : object) : M loc := λ h,
  let l := fresh (dom h) in Some (l, <[l := o]> h).

Definition load (l : loc) : M object := λ h,
  match h !! l with
  | Some o => Some (o, h)
  | None => None
  end.

Definition loadPoint (l : loc) : M StockDataPoint :=
  o ← load l; match o with PointObject p => mret p | _ => failM end.

Definition loadSeries (l : loc) : M (list loc) :=
  o ← load l; match o with SeriesArray ps => mret ps | _ => failM end.

Definition loadData (l : loc) : M (list loc) :=
  o ← load l; match o with DataArray ss => mret ss | _ => failM end.

Definition loadSymbols (l : loc) : M (list string) :=
  o ← load l; match o with SymbolsArray ss => mret ss | _ => failM end.

(** [array.filter(callback)], the callback being run on each element in
    turn; the elements kept are the same references. *)
Fixpoint filterM {A : Type} (callback : A → M bool) (array : list A)
    : M (list A) :=
  match array with
  | [] => mret []
  | a :: rest =>
      keep ← callback a;
      kept ← filterM callback rest;
      mret (if keep : bool then a :: kept else kept)
  end.

(** [array.map(callback)], the callback receiving the element and its index. *)
Fixpoint imapM {A B : Type} (callback : nat → A → M B) (index : nat)
    (array : list A) : M (list B) :=
  match array with
  | [] => mret []
  | a :: rest =>
      b ← callback index a;
      bs ← imapM callback (S index) rest;
      mret (b :: bs)
  end.

Section chartData.
Context `{DateParser}.

(** The callback of [data.map]. *)
Definition toDataset (symbols : list string)
    (startTimestamp endTimestamp : number)
    (index : nat) (stockDataRef : loc) : M DatasetObject :=
  let symbol := symbols !! index in
  let isExchangeRate := bool_decide (symbol = Some "USDJPY=X") in
  stockData ← loadSeries stockDataRef;
  validPoints ← filterM (λ pointRef,
                   point ← loadPoint pointRef;
                   mret (inWindow startTimestamp endTimestamp point))
                 stockData;
  _ ← alloc (SeriesArray validPoints);
  firstValidPoint ← match validPoints !! 0 with
                    | Some pointRef => point ← loadPoint pointRef; mret (Some point)
                    | None => mret None
                    end;
  let baseValue :=
    if isExchangeRate then Number.of_Z 1
    else default (Number.of_Z 0) (firstValidPoint ≫= close) in
  mapped ← imapM (λ _ pointRef,
              point ← loadPoint pointRef;
              mret (toChartPoint isExchangeRate baseValue point))
            0 validPoints;
  _ ← alloc (PointsArray mapped);
  dataRef ← alloc (PointsArray
                     (List.filter (λ point, notNull (y point)) mapped));
  mret {| label := symbol;
          data := dataRef;
          borderDash := [];
          pointRadius := Number.of_Z 0;
          borderWidth := if isExchangeRate then Number.of_decimal 5 1
                         else Number.of_Z 1;
          fill := false;
          yAxisID := if isExchangeRate then "y-exchange" else "y-percent";
          tension := Number.of_decimal 3 1 |}.

Definition chartData (dataRef symbolsRef : loc)
    (startDate endDate : string) : M ChartDataObject :=
  data ← loadData dataRef;
  symbols ← loadSymbols symbolsRef;
  if (length data =? 0) || (length symbols =? 0) then
    labelsRef ← alloc (LabelsArray []);
    datasetsRef ← alloc (DatasetsArray []);
    mret {| labels := labelsRef; datasets := datasetsRef |}
  else
    let startTimestamp := getTime startDate in
    let endTimestamp := getTime endDate in
    labelsRef ← alloc (LabelsArray []);
    ds ← imapM (toDataset symbols startTimestamp endTimestamp) 0 data;
    datasetsRef ← alloc (DatasetsArray ds);
    mret {| labels := labelsRef; datasets := datasetsRef |}.

End chartData.

(** What a reference denotes in a heap. *)
Definition pointsAt (h : heap) (refs : list loc)
    (points : list StockDataPoint) : Prop :=
  Forall2 (λ l p, h !! l = Some (PointObject p)) refs points.

Definition seriesAt (h : heap) (l : loc)
    (series : list StockDataPoint) : Prop :=
  ∃ refs, h !! l = Some (SeriesArray refs) ∧ pointsAt h refs series.

Definition dataAt (h : heap) (l : loc)
    (data : list (list StockDataPoint)) : Prop :=
  ∃ refs, h !! l = Some (DataArray refs) ∧ Forall2 (seriesAt h) refs data.

Definition symbolsAt (h : heap) (l : loc) (symbols : list string) : Prop :=
  h !! l = Some (SymbolsArray symbols).

Definition datasetAt (h : heap) (o : DatasetObject)
    (d : StockChart.Dataset) : Prop :=
  label o = StockChart.label d
  ∧ h !! data o = Some (PointsArray (StockChart.data d))
  ∧ borderDash o = StockChart.borderDash d
  ∧ pointRadius o = StockChart.pointRadius d
  ∧ borderWidth o = StockChart.borderWidth d
  ∧ fill o = StockChart.fill d
  ∧ yAxisID o = StockChart.yAxisID d
  ∧ tension o = StockChart.tension d.

Definition chartDataAt (h : heap) (o : ChartDataObject)
    (cd : StockChart.ChartData) : Prop :=
  h !! labels o = Some (LabelsArray (StockChart.labels cd))
  ∧ ∃ ds, h !! datasets o = Some (DatasetsArray ds)
          ∧ Forall2 (datasetAt h) ds (StockChart.datasets cd).

End Heap.

(** ** Sample inputs

    Days are date-only ISO strings, read by [IsoDate.getTime]. *)

Module Samples.

Import StockChart.

Definition point (day : string) (price : Z) : StockDataPoint :=
  {| date := day; close := Some (Number.of_Z price) |}.

Definition absent (day : string) : StockDataPoint :=
  {| date := day; close := None |}.

(** [ABC] at 100, 110 and 121 on three consecutive days. *)
Definition abc : list StockDataPoint :=
  [point "2024-01-01" 100; point "2024-01-02" 110; point "2024-01-03" 121].

(** The exchange rate on the same days. *)
Definition usdjpy : list StockDataPoint :=
  [point "2024-01-01" 150; point "2024-01-02" 151; point "2024-01-03" 149].

(** [ABC] with no quote on the second day. *)
Definition abc_gap : list StockDataPoint :=
  [point "2024-01-01" 100; absent "2024-01-02"; point "2024-01-03" 121].


(** Five days, of which the window below keeps the middle three. *)
Definition five_days : list StockDataPoint :=
  [point "2023-12-31" 90; point "2024-01-01" 100; point "2024-01-02" 110;
   point "2024-01-03" 121; point "2024-01-04" 130].

Definition startDate : string := "2024-01-01".
Definition endDate : string := "2024-01-03".

Definition chart (raw : list (list StockDataPoint)) (symbols : list string)
    (startDate endDate : string) : ChartData :=
  @chartData IsoDate.getTime raw symbols startDate endDate.

Definition day (s : string) : number := IsoDate.getTime s.

(** The dataset of a raw series at a given index, for the window above. *)
Definition dataset (symbols : list string) (index : nat)
    (stockData : list StockDataPoint) : Dataset :=
  @toDataset IsoDate.getTime symbols (day startDate) (day endDate)
    index stockData.

(** The points of a raw series that the window above keeps. *)
Definition valid (stockData : list StockDataPoint) : list StockDataPoint :=
  List.filter (@inWindow IsoDate.getTime (day startDate) (day endDate))
    stockData.

(** A heap with the props of the component: two point objects at 0 and 1,
    the series that holds them at 2, the [data] array at 3 and the [symbols]
    array at 4. *)
Definition heap : gmap nat Heap.object :=
  <[0 := Heap.PointObject (point "2024-01-01" 100)]>
    (<[1 := Heap.PointObject (point "2024-01-02" 110)]>
       (<[2 := Heap.SeriesArray [0; 1]]>
          (<[3 := Heap.DataArray [2]]>
             (<[4 := Heap.SymbolsArray ["ABC"]]> ∅)))).

(** What the provider answers: [ABC] has no quote on the second day, [XYZ]
    none on the first, and every other symbol fails to load. *)
Definition upstream : YahooFinance.Upstream :=
  {| YahooFinance.extendedStartDate_getTime := day "1994-01-03";
     YahooFinance.fetchSingleStockData := λ _ symbol _ _,
       if String.eqb symbol "ABC" then
         [point "2024-01-01" 100; point "2024-01-03" 121]
       else if String.eqb symbol "XYZ" then
         [point "2024-01-02" 7; absent "2024-01-03"]
       else [] |}.

End Samples.

(** ** utils/yahooFinance: [findNextTradingDay] *)

Module TradingDay.

(** [sortedDates.findIndex(date => date >= startDate)] is modelled by
    [list_find], which gives the index together with the element at it. *)
Definition findNextTradingDay (data : list StockDataPoint)
    (startDate : string) : string :=
  if length data =? 0 then startDate
  else
    let sortedDates := merge_sort String.le (date <$> data) in
    match list_find (λ d, String.le startDate d) sortedDates with
    | Some (startIndex, nextDate) => nextDate
    | None => startDate
    end.

End TradingDay.

(** ** utils/yahooFinance: [fetchSingleStockData] *)

Module SingleFetch.

(** What the function takes from the runtime: the day of a time value as
    [new Date(ms).toISOString().split('T')[0]] gives it, which throws (here
    [None]) when the time value is not a valid one, and the rounding
    [Number(x.toFixed(4))]. *)
Class Runtime := {
  toISODate : number → option string;
  toFixed4 : number → number;
}.

(** What the function reads in the answer to [axios.get(url)]: the two
    arrays of [chart.result[0]], each of which may be missing; [NoResult]
    stands for a rejected request and for an answer without
    [chart.result[0].indicators.quote[0]]. *)
Inductive ChartResponse :=
| NoResult
| Result (close : option (list (option number)))
    (timestamp : option (list number)).

(** The answer of the provider to a request for a symbol and a period. *)
Class Provider := axios_get : string → number → number → ChartResponse.

Section fetchSingleStockData.
Context `{Runtime} `{Provider}.

(** The callback of [timestamps.map]; [None] is a thrown error: for a time
    value without an ISO form, for [prices] undefined, and for
    [prices[index]] undefined, whose [toFixed] is called because it is not
    [null]. *)
Definition toPoint (prices : option (list (option number)))
    (index : nat) (timestamp : number) : option StockDataPoint :=
  day ← toISODate (Number.mul timestamp (Number.of_Z 1000));
  prices ← prices;
  price ← prices !! index;
  Some {| date := day; close := toFixed4 <$> price |}.

(** [timestamps.map(callback)], which stops at the first error. *)
Fixpoint mapPoints (prices : option (list (option number)))
    (index : nat) (timestamps : list number)
    : option (list StockDataPoint) :=
  match timestamps with
  | [] => Some []
  | timestamp :: rest =>
      point ← toPoint prices index timestamp;
      points ← mapPoints prices (S index) rest;
      Some (point :: points)
  end.

(** The [try] block, and the [catch] that turns every error into the empty
    series. *)
Definition fetchSingleStockData (symbol : string)
    (startDate endDate : number) : list StockDataPoint :=
  default []
    (match axios_get symbol startDate endDate with
     | NoResult => None
     | Result prices timestamps =>
         timestamps ← timestamps;
         mapPoints prices 0 timestamps
     end).

End fetchSingleStockData.

(** [fetchStockData] over this [fetchSingleStockData]: every call for a
    symbol gets the answer of the provider for it. *)
Definition upstream `{Runtime} `{Provider} (extendedStartDate_getTime : number)
    : YahooFinance.Upstream :=
  {| YahooFinance.extendedStartDate_getTime := extendedStartDate_getTime;
     YahooFinance.fetchSingleStockData := λ _ symbol startDate endDate,
       fetchSingleStockData symbol startDate endDate |}.

End SingleFetch.

(** ** The route [api/stockData] *)

Module StockDataRoute.

Inductive Body :=
| Error (error : string)
| Data (data : list (list StockDataPoint)).

(** [NextResponse.json(body, { status })] *)
Record Response := {
  status : nat;
  body : Body;
}.

(** [!value] for what [searchParams.get] returns: [null], or the empty
    string. *)
Definition missing (value : option string) : bool :=
  match value with
  | None => true
  | Some s => bool_decide (s = "")
  end.

(** [s.split(separator)] for a separator of one character. *)
Fixpoint split (separator : ascii) (s : string) : list string :=
  match s with
  | EmptyString => [EmptyString]
  | String c rest =>
      if Ascii.eqb c separator then EmptyString :: split separator rest
      else match split separator rest with
           | head :: tail => String c head :: tail
           | [] => [String c EmptyString]
           end
  end.

Section GET.
Context `{DateParser} `{YahooFinance.Upstream}.

(** The three arguments are the values of the parameters [symbols],
    [startDate] and [endDate].  [fetchStockData] does not throw, so the
    [catch] that answers 500 is never entered; past the test, the three
    values are strings. *)
Definition GET (symbols startDate endDate : option string) : Response :=
  if missing symbols || missing startDate || missing endDate then
    {| status := 400; body := Error "Missing required parameters" |}
  else
    let symbolsArray := split "," (default "" symbols) in
    {| status := 200;
       body := Data (YahooFinance.fetchStockData symbolsArray
                       (default "" startDate) (default "" endDate)) |}.

End GET.

End StockDataRoute.

(** ** StockChart: the label of the tooltip *)

Module Tooltip.

Import StockChart.

(** [x.toFixed(2)] *)
Class NumberFormat := toFixed2 : number → string.

Section label.
Context `{NumberFormat}.

(** [options.plugins.tooltip.callbacks.label], for [context.dataset] and
    [context.dataIndex]; [None] is the error thrown by reading [originalY]
    of a point that is not there. *)
Definition labelCallback (dataset : Dataset) (dataIndex : nat)
    : option string :=
  let label := default "" (label dataset) in
  point ← data dataset !! dataIndex;
  let actualValue := originalY point in
  first ← data dataset !! 0;
  let baseValue := originalY first in
  if bool_decide (label = "USDJPY=X") then
    Some (label +:+ ": ¥"
          +:+ match actualValue with
             | Some a => toFixed2 a
             | None => "undefined"
             end)
  else
    match actualValue, baseValue with
    | Some a, Some b =>
        let percentChange :=
          Number.mul (Number.div (Number.sub a b) b) (Number.of_Z 100) in
        let multiplier := Number.div a b in
        Some (label +:+ ": " +:+ toFixed2 percentChange +:+ "% ("
              +:+ toFixed2 multiplier +:+ "x) $" +:+ toFixed2 a)
    | _, _ => Some label
    end.

End label.

End Tooltip.

(** ** components/StockChart.tsx: the chart of the series given by symbol *)

Module SeriesBySymbol.

Import StockChart.

(** One entry of [datasets]; the two colours, which are formatted from the
    index, are left out. *)
Record Dataset := {
  label : string;
  data : list ChartPoint;
  pointRadius : number;
  borderWidth : number;
  fill : bool;
  tension : number;
  spanGaps : bool;
}.

Section chartData.
Context `{DateParser}.

(** The predicate of [stockData.filter]: the timestamp alone. *)
Definition inRange (startTimestamp endTimestamp : number)
    (point : StockDataPoint) : bool :=
  let pointTimestamp := getTime (date point) in
  Number.ge pointTimestamp startTimestamp
  && Number.le pointTimestamp endTimestamp.

(** The callback of [validData.map]. *)
Definition toChartPoint (baseValue : option number)
    (point : StockDataPoint) : ChartPoint :=
  let currentValue := close point in
  {| x := getTime (date point);
     y := match baseValue, currentValue with
          | Some b, Some c => Some (percentChange c b)
          | _, _ => None
          end;
     originalY := currentValue |}.

(** The callback of [Object.entries(data).map]. *)
Definition toDataset (startTimestamp endTimestamp : number)
    (entry : string * list StockDataPoint) : Dataset :=
  let validData :=
    List.filter (inRange startTimestamp endTimestamp) entry.2 in
  let baseValue := validData !! 0 ≫= close in
  {| label := entry.1;
     data := toChartPoint baseValue <$> validData;
     pointRadius := Number.of_Z 0;
     borderWidth := Number.of_Z 2;
     fill := false;
     tension := Number.of_decimal 1 1;
     spanGaps := true |}.

(** [chartData.datasets], for the entries of the [data] object in the order
    in which [Object.entries] lists them. *)
Definition chartData (entries : list (string * list StockDataPoint))
    (startDate endDate : string) : list Dataset :=
  toDataset (getTime startDate) (getTime endDate) <$> entries.

End chartData.

End SeriesBySymbol.

(** ** Tickers

    [interface TickerItem { ticker: string; name: string }], declared by
    [TickerSearch] and by [StockForm]. *)

Module Ticker.

Record TickerItem := {
  ticker : string;
  name : string;
}.

End Ticker.

(** ** components/TickerSearch.tsx *)

Module TickerSearch.

Import Ticker.

(** [s.toLowerCase()] *)
Class StringRuntime := toLowerCase : string → string.

(** [s.includes(searchString)] *)
Fixpoint includes (s searchString : string) : bool :=
  String.prefix searchString s
  || match s with
     | EmptyString => false
     | String _ rest => includes rest searchString
     end.

Section filter.
Context `{StringRuntime}.

(** The predicate of [tickers.filter]. *)
Definition matches (searchText : string) (item : TickerItem) : bool :=
  includes (toLowerCase (ticker item)) (toLowerCase searchText)
  || includes (toLowerCase (name item)) (toLowerCase searchText).

(** What the effect on [searchText] and [tickers] gives to
    [setFilteredTickers]. *)
Definition filteredTickers (tickers : list TickerItem)
    (searchText : string) : list TickerItem :=
  take 100 (List.filter (matches searchText) tickers).

End filter.

End TickerSearch.

(** ** StockForm *)

Module StockForm.

Import Ticker.

(** The [symbols] prop, which [onSymbolsChange] sets, and the state of the
    form. *)
Record State := {
  symbols : list string;
  selectedTickers : list TickerItem;
  isPopupOpen : bool;
  searchText : string;
}.

(** [array.filter((item, i) => callback(i, item))] *)
Fixpoint filterIndexed {A : Type} (callback : nat → A → bool) (index : nat)
    (array : list A) : list A :=
  match array with
  | [] => []
  | a :: rest =>
      if callback index a then a :: filterIndexed callback (S index) rest
      else filterIndexed callback (S index) rest
  end.




Definition handleRemoveSymbol (index : nat) (st : State) : State :=
  let newSelectedTickers :=
    filterIndexed (λ i _, negb (i =? index)) 0 (selectedTickers st) in
  {| symbols := ticker <$> newSelectedTickers;
     selectedTickers := newSelectedTickers;
     isPopupOpen := isPopupOpen st;
     searchText := searchText st |}.

Definition handleTickerSelect (ticker name : string) (st : State) : State :=
  let newTicker := {| Ticker.ticker := ticker; Ticker.name := name |} in
  {| symbols := symbols st ++ [ticker];
     selectedTickers := selectedTickers st ++ [newTicker];
     isPopupOpen := false;
     searchText := searchText st |}.

End StockForm.

(** ** page.tsx: [Home] *)

Module Home.

Record State := {
  stockData : list (list StockDataPoint);
  startDate : string;
  endDate : string;
  symbols : list string;
  isLoading : bool;
  error : option string;
  showTooltip : bool;
}.


(** The parameters of the request that [fetchData] sends. *)
Record Query := {
  query_symbols : string;
  query_startDate : string;
  query_endDate : string;
}.

(** [fetchData] up to its [await]: nothing when a symbol or a date is
    missing, otherwise the state with [isLoading] set and [error] cleared,
    and the query made of the symbols and dates of that moment. *)
Definition fetchData_send (st : State) : option (State * Query) :=
  if (length (symbols st) =? 0)
     || bool_decide (startDate st = "")
     || bool_decide (endDate st = "")
  then None
  else
    Some ({| stockData := stockData st;
             startDate := startDate st;
             endDate := endDate st;
             symbols := symbols st;
             isLoading := true;
             error := None;
             showTooltip := showTooltip st |},
          {| query_symbols := String.concat "," (symbols st);
             query_startDate := startDate st;
             query_endDate := endDate st |}).

(** The URL that [fetchData] gives to [fetch]: the three values are put
    into the template literal as they are. *)
Definition fetchData_url (query : Query) : string :=
  "/api/stockData?symbols=" +:+ query_symbols query
  +:+ "&startDate=" +:+ query_startDate query
  +:+ "&endDate=" +:+ query_endDate query.

(** What [fetchData] makes of the response: the data of a response whose
    [ok] is true ([None] for a rejected request and for any other status).
    The route sends data with status 200 only. *)
Definition received (response : option StockDataRoute.Response)
    : option (list (list StockDataPoint)) :=
  match response with
  | Some r =>
      if (200 <=? StockDataRoute.status r) && (StockDataRoute.status r <? 300)
      then match StockDataRoute.body r with
           | StockDataRoute.Data data => Some data
           | StockDataRoute.Error _ => None
           end
      else None
  | None => None
  end.

(** [fetchData] from its [await] on, in the state of the moment at which
    the response arrives. *)
Definition fetchData_settle (response : option StockDataRoute.Response)
    (st : State) : State :=
  match received response with
  | Some data =>
      {| stockData := data;
         startDate := startDate st;
         endDate := endDate st;
         symbols := symbols st;
         isLoading := false;
         error := error st;
         showTooltip := showTooltip st |}
  | None =>
      {| stockData := stockData st;
         startDate := startDate st;
         endDate := endDate st;
         symbols := symbols st;
         isLoading := false;
         error := Some "Failed to fetch stock data. Please try again.";
         showTooltip := showTooltip st |}
  end.

(** What [Home] shows under the form and the checkbox: the error, the
    chart, the message. *)
Record View := {
  view_error : option string;
  view_chart : option StockChart.Element;
  view_noData : bool;
}.

Section view.
Context `{DateParser}.

(** The last three children of the returned element, once the chart
    component is loaded; [chartHeight] and [isDarkMode] are the state of
    that component. *)
Definition view (chartHeight : string) (isDarkMode : bool)
    (st : State) : View :=
  {| view_error :=
       match error st with
       | Some message => if bool_decide (message = "") then None
                         else Some message
       | None => None
       end;
     view_chart :=
       if (0 <? length (stockData st)) && (0 <? length (symbols st)) then
         Some (StockChart.render (stockData st) (symbols st) (startDate st)
                 (endDate st) (showTooltip st) chartHeight isDarkMode)
       else None;
     view_noData :=
       negb (isLoading st)
       && ((length (stockData st) =? 0) || (length (symbols st) =? 0)) |}.

End view.

End Home.

(** ** The URL of a request and its search parameters

    [fetch(url)] parses [url] against the address of the page, and the route
    reads [request.nextUrl.searchParams] of the URL it is called with.  Both
    follow the URL standard.  A string holds the UTF-8 bytes of the
    JavaScript string. *)

Module Url.

Definition code (c : ascii) : N := Ascii.N_of_ascii c.

(** Every character of [s] passes [test]. *)
Fixpoint all (test : ascii → bool) (s : string) : bool :=
  match s with
  | EmptyString => true
  | String c rest => test c && all test rest
  end.

(** A C0 control or space, which the parser removes at both ends of its
    input. *)
Definition isC0ControlOrSpace (c : ascii) : bool := (code c <=? 32)%N.

(** An ASCII tab or newline, which the parser removes everywhere. *)
Definition isTabOrNewline (c : ascii) : bool :=
  (code c =? 9)%N || (code c =? 10)%N || (code c =? 13)%N.

Fixpoint stripLeading (input : string) : string :=
  match input with
  | EmptyString => EmptyString
  | String c rest => if isC0ControlOrSpace c then stripLeading rest else input
  end.

Fixpoint stripTrailing (input : string) : string :=
  match input with
  | EmptyString => EmptyString
  | String c rest =>
      match stripTrailing rest with
      | EmptyString =>
          if isC0ControlOrSpace c then EmptyString else String c EmptyString
      | kept => String c kept
      end
  end.

Fixpoint removeTabOrNewline (input : string) : string :=
  match input with
  | EmptyString => EmptyString
  | String c rest =>
      if isTabOrNewline c then removeTabOrNewline rest
      else String c (removeTabOrNewline rest)
  end.

(** The part of [s] before the first [c], and the part after it, if any. *)
Fixpoint before (c : ascii) (s : string) : string :=
  match s with
  | EmptyString => EmptyString
  | String c' rest =>
      if Ascii.eqb c' c then EmptyString else String c' (before c rest)
  end.

Fixpoint after (c : ascii) (s : string) : option string :=
  match s with
  | EmptyString => None
  | String c' rest => if Ascii.eqb c' c then Some rest else after c rest
  end.

(** The special-query percent-encode set: the C0 controls, every byte above
    [~], space, the double quote, [#], the apostrophe, [<] and [>]. *)
Definition inSpecialQuerySet (c : ascii) : bool :=
  (code c <=? 31)%N || (126 <? code c)%N
  || (code c =? 32)%N || (code c =? 34)%N || (code c =? 35)%N
  || (code c =? 39)%N || (code c =? 60)%N || (code c =? 62)%N.

Definition hexDigit (n : N) : ascii :=
  Ascii.ascii_of_N (if (n <? 10)%N then 48 + n else 55 + n).

(** A byte as [%] and two upper-case hexadecimal digits. *)
Definition percentEncodeByte (c : ascii) : string :=
  String "%" (String (hexDigit (code c / 16))
                (String (hexDigit (code c mod 16)) EmptyString)).

Definition encodeByte (c : ascii) : string :=
  if inSpecialQuerySet c then percentEncodeByte c else String c EmptyString.

Fixpoint percentEncode (bytes : string) : string :=
  match bytes with
  | EmptyString => EmptyString
  | String c rest => encodeByte c +:+ percentEncode rest
  end.

(** The query of the URL that [input] is parsed to, for an [input] that is
    a path (it starts with one slash) and a base of scheme http or https:
    the path ends at the first [?] or [#], the query at the first [#], and
    the query is percent-encoded.  [None] when there is no [?].  The server
    parses the serialised URL once more, which leaves the query as it is:
    no character of an encoded query is in the set. *)
Definition query (input : string) : option string :=
  percentEncode
  <$> after "?"
        (before "#"
           (removeTabOrNewline (stripTrailing (stripLeading input)))).

Fixpoint plusToSpace (bytes : string) : string :=
  match bytes with
  | EmptyString => EmptyString
  | String c rest =>
      String (if Ascii.eqb c "+" then " "%char else c) (plusToSpace rest)
  end.

Definition hexValue (c : ascii) : option N :=
  let n := code c in
  if (48 <=? n)%N && (n <=? 57)%N then Some (n - 48)%N
  else if (65 <=? n)%N && (n <=? 70)%N then Some (n - 55)%N
  else if (97 <=? n)%N && (n <=? 102)%N then Some (n - 87)%N
  else None.

(** A [%] that two hexadecimal digits follow stands for the byte they
    denote; every other byte stands for itself. *)
Fixpoint percentDecode (bytes : string) : string :=
  match bytes with
  | EmptyString => EmptyString
  | String c rest =>
      if Ascii.eqb c "%" then
        match rest with
        | String high (String low rest') =>
            match hexValue high, hexValue low with
            | Some h, Some l =>
                String (Ascii.ascii_of_N (16 * h + l)) (percentDecode rest')
            | _, _ => String c (percentDecode rest)
            end
        | _ => String c (percentDecode rest)
        end
      else String c (percentDecode rest)
  end.

(** U+FFFD, which the decoder puts in place of bytes that are not UTF-8. *)
Definition replacement : string :=
  String (Ascii.ascii_of_N 239)
    (String (Ascii.ascii_of_N 191)
       (String (Ascii.ascii_of_N 189) EmptyString)).

(** The UTF-8 decoder, with replacement: [needed] bytes are still to come
    for the sequence whose first bytes are [seen], and the next one has to
    lie between [lower] and [upper].  A sequence that is complete is given
    out as it is. *)
Fixpoint utf8Decode (needed : nat) (seen : string) (lower upper : N)
    (bytes : string) : string :=
  match bytes with
  | EmptyString =>
      match needed with
      | O => EmptyString
      | S _ => replacement
      end
  | String byte rest =>
      let b := code byte in
      let first :=
        if (b <=? 127)%N then String byte (utf8Decode 0 "" 128 191 rest)
        else if (194 <=? b)%N && (b <=? 223)%N then
          utf8Decode 1 (String byte "") 128 191 rest
        else if (224 <=? b)%N && (b <=? 239)%N then
          utf8Decode 2 (String byte "")
            (if (b =? 224)%N then 160 else 128)
            (if (b =? 237)%N then 159 else 191) rest
        else if (240 <=? b)%N && (b <=? 244)%N then
          utf8Decode 3 (String byte "")
            (if (b =? 240)%N then 144 else 128)
            (if (b =? 244)%N then 143 else 191) rest
        else replacement +:+ utf8Decode 0 "" 128 191 rest in
      match needed with
      | O => first
      | S n =>
          if (lower <=? b)%N && (b <=? upper)%N then
            match n with
            | O => seen +:+ String byte (utf8Decode 0 "" 128 191 rest)
            | S _ => utf8Decode n (seen +:+ String byte "") 128 191 rest
            end
          else replacement +:+ first
      end
  end.

(** A name or a value of [application/x-www-form-urlencoded]. *)
Definition decode (bytes : string) : string :=
  utf8Decode 0 "" 128 191 (percentDecode (plusToSpace bytes)).

(** The parser of [application/x-www-form-urlencoded]: the pieces between
    the [&], but the empty ones; each is a name, up to its first [=], and a
    value. *)
Definition parseUrlencoded (input : string) : list (string * string) :=
  (λ bytes, (decode (before "=" bytes),
             decode (default "" (after "=" bytes))))
  <$> List.filter (λ bytes, negb (String.eqb bytes ""))
        (StockDataRoute.split "&" input).

(** [new URL(input, base).searchParams] *)
Definition searchParams (input : string) : list (string * string) :=
  match query input with
  | Some encoded => parseUrlencoded encoded
  | None => []
  end.

(** [searchParams.get(name)]: the value of the first tuple of that name. *)
Definition searchParams_get (input name : string) : option string :=
  snd <$> List.find (λ tuple, String.eqb (fst tuple) name)
            (searchParams input).

(** A character that a query carries as it is from the template literal to
    the value that [searchParams.get] returns: a printable ASCII character
    other than space, [#], [%], [&] and [+]. *)
Definition plain (c : ascii) : bool :=
  (33 <=? code c)%N && (code c <=? 126)%N
  && negb (Ascii.eqb c "#") && negb (Ascii.eqb c "%")
  && negb (Ascii.eqb c "&") && negb (Ascii.eqb c "+").

(** A character that the parser leaves where it is: it is not removed at
    the ends of the input and does not end the query. *)
Definition kept (c : ascii) : bool :=
  negb (isC0ControlOrSpace c) && negb (Ascii.eqb c "#").

End Url.

(** ** The request of [fetchData], answered by the route *)

Module Fetch.

Section fetch.
Context `{DateParser} `{YahooFinance.Upstream}.

(** [fetch(url)] for a URL of the route: the response of [GET] to the
    request, whose [nextUrl.searchParams] are those of the URL. *)
Definition fetch (url : string) : StockDataRoute.Response :=
  StockDataRoute.GET (Url.searchParams_get url "symbols")
    (Url.searchParams_get url "startDate")
    (Url.searchParams_get url "endDate").

End fetch.

End Fetch.

(** ** More sample inputs *)

Module Cases.

(** Seconds since 1970 of the first two days of 2024, as the provider gives
    them. *)
Definition day1 : number := Number.of_Z 1704067200.
Definition day2 : number := Number.of_Z 1704153600.

(** A runtime for the two days above (every other valid time value is put
    on 1970-01-01) and for prices of at most four decimals. *)
Definition runtime : SingleFetch.Runtime :=
  {| SingleFetch.toISODate := λ ms,
       if SFeqb ms (Number.of_Z 1704067200000) then Some "2024-01-01"
       else if SFeqb ms (Number.of_Z 1704153600000) then Some "2024-01-02"
       else if Number.isFinite ms then Some "1970-01-01"
       else None;
     SingleFetch.toFixed4 := λ price, price |}.

(** A provider that knows [ABC], with no price on the second day, answers
    [SHORT] with one price for two timestamps, and fails otherwise. *)
Definition provider : SingleFetch.Provider := λ symbol _ _,
  if String.eqb symbol "ABC" then
    SingleFetch.Result (Some [Some (Number.of_Z 100); None])
                       (Some [day1; day2])
  else if String.eqb symbol "SHORT" then
    SingleFetch.Result (Some [Some (Number.of_Z 100)]) (Some [day1; day2])
  else SingleFetch.NoResult.

(** Two decimals for the numbers of the second point of [Samples.abc]. *)
Definition format : Tooltip.NumberFormat := λ value,
  if SFeqb value (Number.of_Z 10) then "10.00"
  else if SFeqb value (Number.of_decimal 11 1) then "1.10"
  else if SFeqb value (Number.of_Z 110) then "110.00"
  else if SFeqb value (Number.of_Z 151) then "151.00"
  else "0.00".

Definition lower (c : ascii) : ascii :=
  let n := Ascii.N_of_ascii c in
  if (65 <=? n)%N && (n <=? 90)%N then Ascii.ascii_of_N (n + 32) else c.

(** Lower case for the letters A to Z. *)
Definition strings : TickerSearch.StringRuntime :=
  fix toLowerCase (s : string) : string :=
    match s with
    | EmptyString => EmptyString
    | String c rest => String (lower c) (toLowerCase rest)
    end.

Definition tickers : list Ticker.TickerItem :=
  [ {| Ticker.ticker := "^GSPC"; Ticker.name := "S&P 500" |};
    {| Ticker.ticker := "AAPL"; Ticker.name := "Apple Inc." |};
    {| Ticker.ticker := "USDJPY=X"; Ticker.name := "USD/JPY" |} ].

(** The form with two symbols selected. *)
Definition form : StockForm.State :=
  {| StockForm.symbols := ["USDJPY=X"; "AAPL"];
     StockForm.selectedTickers :=
       [ {| Ticker.ticker := "USDJPY=X"; Ticker.name := "USD/JPY" |};
         {| Ticker.ticker := "AAPL"; Ticker.name := "Apple Inc." |} ];
     StockForm.isPopupOpen := false;
     StockForm.searchText := "^" |}.

(** [Home] with the series of one symbol. *)
Definition home : Home.State :=
  {| Home.stockData := [Samples.abc];
     Home.startDate := Samples.startDate;
     Home.endDate := Samples.endDate;
     Home.symbols := ["ABC"];
     Home.isLoading := false;
     Home.error := None;
     Home.showTooltip := true |}.

(** A series that opens the window without a close. *)
Definition late_start : list StockDataPoint :=
  [Samples.absent "2024-01-01"; Samples.point "2024-01-02" 110].

End Cases.

(** * Properties *)

Import StockChart.

(** ** Numbers *)

Lemma of_Z_0 : Number.of_Z 0 = S754_zero false.
Proof. reflexivity. Qed.

Lemma of_Z_100 : Number.of_Z 100 = S754_finite false 7036874417766400 (-46).
Proof. vm_compute. reflexivity. Qed.

(** A comparison that succeeds has no NaN operand. *)
Lemma ge_not_NaN a b : Number.ge a b = true → Number.isNaN a = false.
Proof. by destruct a. Qed.

Lemma ge_NaN_r a : Number.ge a Number.NaN = false.
Proof. by destruct a. Qed.

Lemma le_NaN_r a : Number.le a Number.NaN = false.
Proof. by destruct a. Qed.

Lemma lt_not_ge a b : Number.lt a b = true → Number.ge a b = false.
Proof.
  unfold Number.lt, Number.ge.
  by destruct (SFcompare a b) as [[]|].
Qed.

(** [a < b] read from the other side is [b > a]. *)
Lemma SFcompare_swap a b :
  SFcompare a b = CompOpp <$> SFcompare b a.
Proof.
  destruct a as [sa|sa| |sa ma ea], b as [sb|sb| |sb mb eb]; simpl;
    try done; try (by destruct sa); try (by destruct sb);
    try (by destruct sa, sb).
  destruct sa, sb; try done.
  - rewrite (Z.compare_antisym ea eb).
    destruct (ea ?= eb)%Z eqn:E; simpl; try done.
    by rewrite (Pos.compare_cont_antisym mb ma Eq).
  - rewrite (Z.compare_antisym ea eb).
    destruct (ea ?= eb)%Z eqn:E; simpl; try done.
    by rewrite (Pos.compare_cont_antisym mb ma Eq).
Qed.

Lemma lt_not_le a b : Number.lt a b = true → Number.le b a = false.
Proof.
  unfold Number.lt, Number.le. rewrite (SFcompare_swap b a).
  by destruct (SFcompare a b) as [[]|].
Qed.

(** A finite price measured against itself is at zero percent. *)
Lemma percentChange_self s m e :
  StockChart.percentChange (S754_finite s m e) (S754_finite s m e)
  = S754_zero s.
Proof.
  unfold StockChart.percentChange. rewrite of_Z_100.
  unfold Number.sub, SFsub. rewrite Z.min_id.
  unfold shl_align. rewrite Z.sub_diag. cbn. by destruct s.
Qed.

(** Two consecutive days of a month are 86,400,000 ms apart. *)
Lemma IsoDate_next_day y m d :
  (IsoDate.daysFromCivil y m (d + 1) * IsoDate.msPerDay
   = IsoDate.daysFromCivil y m d * IsoDate.msPerDay + 86400000)%Z.
Proof. unfold IsoDate.daysFromCivil, IsoDate.msPerDay. lia. Qed.


Lemma percentChange_zero_zero s s' :
  StockChart.percentChange (S754_zero s) (S754_zero s') = Number.NaN.
Proof. by destruct s, s'. Qed.

Lemma percentChange_nonzero_zero sp mp ep s :
  StockChart.percentChange (S754_finite sp mp ep) (S754_zero s)
  = S754_infinity (xorb sp s).
Proof.
  unfold StockChart.percentChange. rewrite of_Z_100. simpl.
  by destruct (xorb sp s).
Qed.

(** ** The order of the numbers and the sign of a difference *)

Section number_order.
#[local] Open Scope Z_scope.

















End number_order.

(** ** The limits of the zoom plugin *)



(** ** The datasets of [chartData] *)

Section chartData_properties.
Context `{parser : DateParser}.

Implicit Types (raw : list (list StockDataPoint)) (symbols : list string).
Implicit Types (stockData : list StockDataPoint) (point : StockDataPoint).
Implicit Types (ds : Dataset) (cp : ChartPoint).

Lemma chartData_empty raw symbols startDate endDate :
  raw = [] ∨ symbols = [] →
  chartData raw symbols startDate endDate = {| labels := []; datasets := [] |}.
Proof. unfold chartData. intros [-> | ->]; [done | by destruct raw]. Qed.

Lemma chartData_datasets raw symbols startDate endDate :
  raw ≠ [] → symbols ≠ [] →
  datasets (chartData raw symbols startDate endDate)
  = imap (toDataset symbols (getTime startDate) (getTime endDate)) raw.
Proof. unfold chartData. by destruct raw, symbols. Qed.

(** Every dataset is the image of the raw series at its index. *)
Lemma chartData_lookup raw symbols startDate endDate i ds :
  datasets (chartData raw symbols startDate endDate) !! i = Some ds →
  ∃ stockData,
    raw !! i = Some stockData
    ∧ ds = toDataset symbols (getTime startDate) (getTime endDate) i stockData.
Proof.
  unfold chartData.
  destruct (_ || _); simpl; [done|].
  by rewrite list_lookup_imap_Some.
Qed.

Lemma chartData_elem_of raw symbols startDate endDate ds :
  ds ∈ datasets (chartData raw symbols startDate endDate) →
  ∃ i stockData,
    raw !! i = Some stockData
    ∧ ds = toDataset symbols (getTime startDate) (getTime endDate) i stockData.
Proof.
  intros [i Hi]%list_elem_of_lookup.
  exists i. by apply chartData_lookup.
Qed.

Lemma inWindow_true s e point :
  inWindow s e point = true ↔
  is_Some (close point)
  ∧ Number.ge (getTime (date point)) s = true
  ∧ Number.le (getTime (date point)) e = true.
Proof.
  unfold inWindow. rewrite !andb_true_iff.
  destruct (close point); simpl; split.
  - intros [[_ ?] ?]. eauto.
  - intros (_ & ? & ?). done.
  - intros [[? _] _]. done.
  - intros ([? ?] & _). done.
Qed.

Lemma validData_Forall s e stockData :
  Forall (λ point, inWindow s e point = true)
         (List.filter (inWindow s e) stockData).
Proof.
  apply Forall_forall. intros point Hin%list_elem_of_In.
  by apply filter_In in Hin as [_ ?].
Qed.

(** The last [filter] of the callback finds no [null] to remove: a point that
    passed the first one has a close, and its [y] is a number. *)
Lemma filter_y_notNull isExchangeRate baseValue (points : list StockDataPoint) :
  Forall (λ point, is_Some (close point)) points →
  List.filter (λ cp, notNull (y cp))
              (toChartPoint isExchangeRate baseValue <$> points)
  = toChartPoint isExchangeRate baseValue <$> points.
Proof.
  induction 1 as [|point points [c Hc] _ IH]; [done|].
  rewrite fmap_cons. cbn [List.filter].
  replace (notNull (y (toChartPoint isExchangeRate baseValue point)))
    with true by (by cbn; rewrite Hc).
  by rewrite IH.
Qed.

Lemma toDataset_data symbols s e i stockData :
  data (toDataset symbols s e i stockData)
  = toChartPoint
      (bool_decide (symbols !! i = Some "USDJPY=X"))
      (if bool_decide (symbols !! i = Some "USDJPY=X") then Number.of_Z 1
       else default (Number.of_Z 0)
              (List.filter (inWindow s e) stockData !! 0 ≫= close))
    <$> List.filter (inWindow s e) stockData.
Proof.
  unfold toDataset. simpl. apply filter_y_notNull.
  eapply Forall_impl; [apply validData_Forall|].
  intros point Hp. by apply inWindow_true in Hp as [? _].
Qed.

(** A point that is plotted passed both comparisons of the filter. *)
Lemma chart_point_in_window raw symbols startDate endDate ds cp :
  ds ∈ datasets (chartData raw symbols startDate endDate) →
  cp ∈ data ds →
  Number.ge (x cp) (getTime startDate) = true
  ∧ Number.le (x cp) (getTime endDate) = true.
Proof.
  intros (i & stockData & _ & ->)%chartData_elem_of.
  rewrite toDataset_data.
  intros (point & -> & Hpoint)%list_elem_of_fmap. simpl.
  pose proof (validData_Forall (getTime startDate) (getTime endDate)
                stockData) as Hall.
  rewrite Forall_forall in Hall.
  by apply Hall, inWindow_true in Hpoint as (_ & ? & ?).
Qed.

End chartData_properties.

(** ** Normalisation, the empty state and the zoom limits *)

Section normalisation.
Context `{parser : DateParser}.

Implicit Types (raw : list (list StockDataPoint)) (symbols : list string).
Implicit Types (stockData : list StockDataPoint) (point : StockDataPoint).
Implicit Types (ds : Dataset) (cp : ChartPoint).

(** C1.  In a series that is not the exchange rate, let [b] be the close of
    the first point that is present and inside the window, and let it be
    non-zero.  Then the [k]-th such point, of close [p], is plotted at the
    [k]-th place of the dataset with the value [(p - b) / b * 100], computed
    in binary64 as the formula is written; it keeps [p] as [originalY]. *)
Theorem percent_change_of_baseline raw symbols startDate endDate
    i stockData ds first b k point p :
  raw !! i = Some stockData →
  datasets (chartData raw symbols startDate endDate) !! i = Some ds →
  symbols !! i ≠ Some "USDJPY=X" →
  List.filter (inWindow (getTime startDate) (getTime endDate)) stockData !! 0
    = Some first →
  close first = Some b →
  Number.isZero b = false →
  List.filter (inWindow (getTime startDate) (getTime endDate)) stockData !! k
    = Some point →
  close point = Some p →
  ∃ cp,
    data ds !! k = Some cp
    ∧ x cp = getTime (date point)
    ∧ y cp = Some (Number.mul (Number.div (Number.sub p b) b) (Number.of_Z 100))
    ∧ originalY cp = Some p.
Proof.
  intros Hraw Hds Hsym Hfirst Hb _ Hk Hp.
  apply chartData_lookup in Hds as (stockData' & Hraw' & ->).
  assert (stockData' = stockData) as -> by congruence.
  rewrite toDataset_data, list_lookup_fmap, Hk. simpl.
  eexists; split; [done|].
  rewrite bool_decide_eq_false_2 by done.
  rewrite Hfirst. simpl. rewrite Hb, Hp. done.
Qed.


(** C3.  The series whose symbol is ['USDJPY=X'] is plotted as it is: each
    present point inside the window gives a point whose value is its close,
    whatever the first close is, and the dataset goes to the axis
    ['y-exchange'], while every other dataset goes to ['y-percent']; these
    are the two value axes that [options] declares. *)
Theorem exchange_rate_passthrough raw symbols startDate endDate i stockData ds :
  raw !! i = Some stockData →
  datasets (chartData raw symbols startDate endDate) !! i = Some ds →
  symbols !! i = Some "USDJPY=X" →
  data ds
  = (λ point, {| x := getTime (date point);
                 y := close point;
                 originalY := close point |})
    <$> List.filter (inWindow (getTime startDate) (getTime endDate)) stockData
  ∧ (∀ cp, cp ∈ data ds → is_Some (y cp) ∧ y cp = originalY cp)
  ∧ yAxisID ds = "y-exchange"
  ∧ (∀ j ds',
       datasets (chartData raw symbols startDate endDate) !! j = Some ds' →
       symbols !! j ≠ Some "USDJPY=X" →
       yAxisID ds' = "y-percent" ∧ yAxisID ds' ≠ yAxisID ds)
  ∧ (∀ isDarkMode showTooltip,
       (scales_y (options isDarkMode startDate endDate showTooltip)).*1
       = ["y-percent"; yAxisID ds]).
Proof.
  intros Hraw Hds Hsym.
  apply chartData_lookup in Hds as (stockData' & Hraw' & ->).
  assert (stockData' = stockData) as -> by congruence.
  pose proof (validData_Forall (getTime startDate) (getTime endDate) stockData)
    as Hall.
  rewrite Forall_forall in Hall.
  assert (data (toDataset symbols (getTime startDate) (getTime endDate)
                  i stockData)
          = (λ point, {| x := getTime (date point);
                         y := close point;
                         originalY := close point |})
            <$> List.filter (inWindow (getTime startDate) (getTime endDate))
                  stockData) as Hdata.
  { rewrite toDataset_data, bool_decide_eq_true_2 by done.
    apply list_fmap_ext. intros _ point _. unfold toChartPoint.
    by destruct (close point). }
  split; [exact Hdata|]. split; [|split; [|split]].
  - rewrite Hdata. intros cp (point & -> & Hin)%list_elem_of_fmap. simpl.
    by apply Hall, inWindow_true in Hin as [? _].
  - unfold toDataset. simpl. by rewrite bool_decide_eq_true_2.
  - intros j ds' Hds' Hj.
    apply chartData_lookup in Hds' as (stockData' & _ & ->).
    unfold toDataset. simpl.
    by rewrite bool_decide_eq_false_2, bool_decide_eq_true_2.
  - intros isDarkMode showTooltip.
    unfold toDataset. simpl. by rewrite bool_decide_eq_true_2.
Qed.

(** C4.  Every point of every dataset has its timestamp between the
    timestamps of [startDate] and [endDate], both included; and a raw point
    dated before the first or after the second is rejected by the filter, so
    that no point of any dataset carries its timestamp. *)
Theorem points_within_window raw symbols startDate endDate :
  (∀ ds cp,
     ds ∈ datasets (chartData raw symbols startDate endDate) →
     cp ∈ data ds →
     Number.ge (x cp) (getTime startDate) = true
     ∧ Number.le (x cp) (getTime endDate) = true)
  ∧ (∀ point,
       Number.lt (getTime (date point)) (getTime startDate) = true
       ∨ Number.lt (getTime endDate) (getTime (date point)) = true →
       inWindow (getTime startDate) (getTime endDate) point = false
       ∧ ∀ ds cp,
           ds ∈ datasets (chartData raw symbols startDate endDate) →
           cp ∈ data ds →
           x cp ≠ getTime (date point)).
Proof.
  pose proof (chart_point_in_window raw symbols startDate endDate) as Hin.
  split; [exact Hin|].
  intros point Hout. split.
  - unfold inWindow.
    destruct Hout as [Hlt%lt_not_ge | Hlt%lt_not_le].
    + rewrite Hlt. by destruct (notNull _).
    + rewrite Hlt. by rewrite andb_false_r.
  - intros ds cp Hds Hcp Heq.
    destruct (Hin ds cp Hds Hcp) as [Hge Hle]. rewrite Heq in Hge, Hle.
    destruct Hout as [Hlt%lt_not_ge | Hlt%lt_not_le]; congruence.
Qed.

(** C5.  The points of a dataset are the raw points that have a close and lie
    inside the window, one for one and in the order of the raw series: a raw
    point without a close leaves no point, and nothing is put in its place. *)
Theorem absent_points_dropped raw symbols startDate endDate i stockData ds :
  raw !! i = Some stockData →
  datasets (chartData raw symbols startDate endDate) !! i = Some ds →
  (λ cp, (x cp, originalY cp)) <$> data ds
  = (λ point, (getTime (date point), close point))
    <$> List.filter
          (λ point,
             notNull (close point)
             && Number.ge (getTime (date point)) (getTime startDate)
             && Number.le (getTime (date point)) (getTime endDate))
          stockData
  ∧ (∀ cp, cp ∈ data ds → is_Some (originalY cp) ∧ is_Some (y cp))
  ∧ length (data ds) ≤ length stockData.
Proof.
  intros Hraw Hds.
  apply chartData_lookup in Hds as (stockData' & Hraw' & ->).
  assert (stockData' = stockData) as -> by congruence.
  rewrite toDataset_data.
  pose proof (validData_Forall (getTime startDate) (getTime endDate) stockData)
    as Hall.
  rewrite Forall_forall in Hall.
  split; [|split].
  - by rewrite <- list_fmap_compose.
  - intros cp (point & -> & Hin)%list_elem_of_fmap.
    apply Hall, inWindow_true in Hin as [[c Hc] _].
    unfold toChartPoint. simpl. rewrite Hc. eauto.
  - rewrite length_fmap.
    pose proof (filter_length (inWindow (getTime startDate) (getTime endDate))
                  stockData).
    lia.
Qed.

(** C6, as the code has it.  With no symbol (or no raw series) the dataset
    list is empty, nothing fails, and the component returns the message
    ['No data available to display'] and no chart; it does so exactly then,
    the test being on the two props.  With both non-empty it returns the
    chart, with one dataset for each raw series, also when the window leaves
    no point in any of them.  The effect that updates the chart instance does
    nothing while there is no instance. *)
Theorem no_data_message raw symbols startDate endDate
    showTooltip chartHeight isDarkMode :
  chartData raw [] startDate endDate = {| labels := []; datasets := [] |}
  ∧ (raw = [] ∨ symbols = [] →
     datasets (chartData raw symbols startDate endDate) = [])
  ∧ (render raw symbols startDate endDate showTooltip chartHeight isDarkMode
     = NoDataMessage "No data available to display"
     ↔ raw = [] ∨ symbols = [])
  ∧ (raw ≠ [] → symbols ≠ [] →
     render raw symbols startDate endDate showTooltip chartHeight isDarkMode
     = ChartContainer chartHeight (if isDarkMode then "#333" else "#fff")
         (chartData raw symbols startDate endDate)
         (options isDarkMode startDate endDate showTooltip)
     ∧ length (datasets (chartData raw symbols startDate endDate))
       = length raw)
  ∧ (∀ cd opts, syncChart None cd opts = None).
Proof.
  split; [by apply chartData_empty; right|].
  split; [by intros Hempty; rewrite chartData_empty|].
  split; [|split; [|done]].
  - unfold render. destruct raw, symbols; simpl; split; auto.
    + done.
    + by intros [? | ?].
  - intros Hraw Hsym. split.
    + unfold render. by destruct raw, symbols.
    + by rewrite chartData_datasets, length_imap.
Qed.

Lemma filter_none {A : Type} (f : A → bool) (l : list A) :
  (∀ a, f a = false) → List.filter f l = [].
Proof.
  intros Hf. induction l as [|a l IH]; [done|].
  simpl. by rewrite Hf.
Qed.

(** C7, as the code has it.  Nothing compares the number of raw series with
    the number of symbols, and nothing rejects a date: with both lists
    non-empty there is one dataset for each raw series, labelled by the symbol
    at its index and by [undefined] where there is none, the symbols beyond
    the last series being ignored.  A window bound that is not a date (NaN)
    leaves every dataset without points, and a raw point whose date is not a
    date is left out. *)
Theorem mismatched_input_not_rejected raw symbols startDate endDate :
  raw ≠ [] → symbols ≠ [] →
  length (datasets (chartData raw symbols startDate endDate)) = length raw
  ∧ (∀ i ds,
       datasets (chartData raw symbols startDate endDate) !! i = Some ds →
       label ds = symbols !! i)
  ∧ (Number.isNaN (getTime startDate) = true
     ∨ Number.isNaN (getTime endDate) = true →
     ∀ ds, ds ∈ datasets (chartData raw symbols startDate endDate) →
           data ds = [])
  ∧ (∀ ds cp,
       ds ∈ datasets (chartData raw symbols startDate endDate) →
       cp ∈ data ds →
       Number.isNaN (x cp) = false).
Proof.
  intros Hraw Hsym. split; [|split; [|split]].
  - by rewrite chartData_datasets, length_imap.
  - by intros i ds (stockData & _ & ->)%chartData_lookup.
  - intros Hnan ds (i & stockData & _ & ->)%chartData_elem_of.
    rewrite toDataset_data, filter_none; [done|].
    intros point. unfold inWindow.
    destruct Hnan as [Hnan | Hnan].
    + destruct (getTime startDate); try done.
      rewrite ge_NaN_r. by destruct (notNull _).
    + destruct (getTime endDate); try done.
      rewrite le_NaN_r. by rewrite andb_false_r.
  - intros ds cp Hds Hcp.
    destruct (chart_point_in_window raw symbols startDate endDate ds cp
                Hds Hcp) as [Hge _].
    by apply ge_not_NaN in Hge.
Qed.


End normalisation.

(** The scenario of the specification: [ABC] at 100, 110, 121 is plotted at
    0, 10, 21 percent, and the exchange rate at its own values. *)
Example scenario_abc_usdjpy :
  (λ ds, (yAxisID ds, y <$> data ds))
    <$> datasets (Samples.chart [Samples.abc; Samples.usdjpy]
                    ["ABC"; "USDJPY=X"] Samples.startDate Samples.endDate)
  = [ ("y-percent",
       [Some (Number.of_Z 0); Some (Number.of_Z 10); Some (Number.of_Z 21)]);
      ("y-exchange",
       [Some (Number.of_Z 150); Some (Number.of_Z 151);
        Some (Number.of_Z 149)]) ].
Proof. vm_compute. reflexivity. Qed.

Lemma percent_change_of_baseline_witness :
  ∃ cp,
    (datasets (Samples.chart [Samples.abc; Samples.usdjpy] ["ABC"; "USDJPY=X"]
                 Samples.startDate Samples.endDate) !! 0
       ≫= λ ds, data ds !! 2) = Some cp
    ∧ y cp = Some (Number.of_Z 21).
Proof.
  destruct (@percent_change_of_baseline IsoDate.getTime
              [Samples.abc; Samples.usdjpy] ["ABC"; "USDJPY=X"]
              Samples.startDate Samples.endDate 0 Samples.abc
              (Samples.dataset ["ABC"; "USDJPY=X"] 0 Samples.abc)
              (Samples.point "2024-01-01" 100) (Number.of_Z 100)
              2 (Samples.point "2024-01-03" 121) (Number.of_Z 121))
    as (cp & Hcp & _ & Hy & _);
    [reflexivity | reflexivity | discriminate | reflexivity | reflexivity
    | reflexivity | reflexivity | reflexivity |].
  exists cp. split; [exact Hcp|]. rewrite Hy. vm_compute. reflexivity.
Defined.



Lemma exchange_rate_passthrough_witness :
  y <$> data (Samples.dataset ["ABC"; "USDJPY=X"] 1 Samples.usdjpy)
  = [Some (Number.of_Z 150); Some (Number.of_Z 151); Some (Number.of_Z 149)]
  ∧ yAxisID (Samples.dataset ["ABC"; "USDJPY=X"] 1 Samples.usdjpy)
    = "y-exchange".
Proof.
  destruct (@exchange_rate_passthrough IsoDate.getTime
              [Samples.abc; Samples.usdjpy] ["ABC"; "USDJPY=X"]
              Samples.startDate Samples.endDate 1 Samples.usdjpy
              (Samples.dataset ["ABC"; "USDJPY=X"] 1 Samples.usdjpy))
    as (Hdata & _ & Haxis & _ & _); [reflexivity | reflexivity | reflexivity |].
  split; [|exact Haxis].
  rewrite Hdata. vm_compute. reflexivity.
Defined.

Lemma points_within_window_witness :
  (∀ cp, cp ∈ data (Samples.dataset ["ABC"] 0 Samples.five_days) →
     Number.ge (x cp) (Samples.day "2024-01-01") = true
     ∧ Number.le (x cp) (Samples.day "2024-01-03") = true)
  ∧ (∀ cp, cp ∈ data (Samples.dataset ["ABC"] 0 Samples.five_days) →
       x cp ≠ Samples.day "2023-12-31")
  ∧ (∀ cp, cp ∈ data (Samples.dataset ["ABC"] 0 Samples.five_days) →
       x cp ≠ Samples.day "2024-01-04").
Proof.
  destruct (@points_within_window IsoDate.getTime [Samples.five_days] ["ABC"]
              Samples.startDate Samples.endDate) as [Hin Hout].
  assert (Samples.dataset ["ABC"] 0 Samples.five_days
          ∈ datasets (@chartData IsoDate.getTime [Samples.five_days] ["ABC"]
                        Samples.startDate Samples.endDate)) as Hds
    by (apply list_elem_of_singleton; reflexivity).
  split; [|split].
  - intros cp Hcp. exact (Hin _ cp Hds Hcp).
  - intros cp Hcp.
    destruct (Hout (Samples.point "2023-12-31" 90)) as [_ Hne];
      [left; reflexivity|].
    exact (Hne _ cp Hds Hcp).
  - intros cp Hcp.
    destruct (Hout (Samples.point "2024-01-04" 130)) as [_ Hne];
      [right; reflexivity|].
    exact (Hne _ cp Hds Hcp).
Defined.

Lemma absent_points_dropped_witness :
  (λ cp, (x cp, originalY cp))
    <$> data (Samples.dataset ["ABC"] 0 Samples.abc_gap)
  = [(Samples.day "2024-01-01", Some (Number.of_Z 100));
     (Samples.day "2024-01-03", Some (Number.of_Z 121))].
Proof.
  destruct (@absent_points_dropped IsoDate.getTime [Samples.abc_gap] ["ABC"]
              Samples.startDate Samples.endDate 0 Samples.abc_gap
              (Samples.dataset ["ABC"] 0 Samples.abc_gap))
    as (Hdata & _); [reflexivity | reflexivity |].
  rewrite Hdata. vm_compute. reflexivity.
Defined.

(** A year that holds none of the quotes: the only dataset has no point, and
    the component still returns the chart, not the message. *)
Lemma all_series_filtered_out_counterexample :
  Forall (λ ds, data ds = [])
    (datasets (Samples.chart [Samples.abc] ["ABC"] "2025-01-01" "2025-12-31"))
  ∧ @render IsoDate.getTime [Samples.abc] ["ABC"] "2025-01-01" "2025-12-31"
      true "500px" false
    = ChartContainer "500px" "#fff"
        {| labels := [];
           datasets := [ {| label := Some "ABC";
                            data := [];
                            borderDash := [];
                            pointRadius := Number.of_Z 0;
                            borderWidth := Number.of_Z 1;
                            fill := false;
                            yAxisID := "y-percent";
                            tension := Number.of_decimal 3 1 |} ] |}
        (@options IsoDate.getTime false "2025-01-01" "2025-12-31" true).
Proof.
  split; [|vm_compute; reflexivity].
  apply Forall_cons. split; [vm_compute; reflexivity | apply Forall_nil_2].
Qed.

Lemma no_data_message_witness :
  @render IsoDate.getTime [Samples.abc] [] Samples.startDate Samples.endDate
    true "500px" false
  = NoDataMessage "No data available to display"
  ∧ datasets (Samples.chart [Samples.abc] [] Samples.startDate Samples.endDate)
    = []
  ∧ length (datasets (Samples.chart [Samples.abc] ["ABC"]
                        "2025-01-01" "2025-12-31")) = 1.
Proof.
  destruct (@no_data_message IsoDate.getTime [Samples.abc] []
              Samples.startDate Samples.endDate true "500px" false)
    as (_ & Hempty & Hmsg & _).
  destruct (@no_data_message IsoDate.getTime [Samples.abc] ["ABC"]
              "2025-01-01" "2025-12-31" true "500px" false)
    as (_ & _ & _ & Hchart & _).
  split; [apply Hmsg; right; reflexivity|].
  split; [apply Hempty; right; reflexivity|].
  apply Hchart; discriminate.
Defined.



(** Two raw series for one symbol: no failure, and a second dataset without
    a label, percent-transformed like any other.  A start date that is not a
    date: no failure either, and a dataset without points. *)
Lemma mismatched_counts_counterexample :
  length [Samples.abc; Samples.five_days] ≠ length ["ABC"]
  ∧ (λ ds, (label ds, yAxisID ds, length (data ds)))
      <$> datasets (Samples.chart [Samples.abc; Samples.five_days] ["ABC"]
                      Samples.startDate Samples.endDate)
    = [(Some "ABC", "y-percent", 3); (None, "y-percent", 3)]
  ∧ Samples.day "01/2024" = Number.NaN
  ∧ (λ ds, (label ds, data ds))
      <$> datasets (Samples.chart [Samples.abc] ["ABC"]
                      "01/2024" Samples.endDate)
    = [(Some "ABC", [])].
Proof.
  split; [discriminate|].
  split; [vm_compute; reflexivity|].
  split; vm_compute; reflexivity.
Qed.

Lemma mismatched_input_not_rejected_witness :
  length (datasets (Samples.chart [Samples.abc; Samples.five_days] ["ABC"]
                      Samples.startDate Samples.endDate)) = 2
  ∧ (∀ ds, datasets (Samples.chart [Samples.abc; Samples.five_days] ["ABC"]
                       Samples.startDate Samples.endDate) !! 1 = Some ds →
           label ds = None).
Proof.
  destruct (@mismatched_input_not_rejected IsoDate.getTime
              [Samples.abc; Samples.five_days] ["ABC"]
              Samples.startDate Samples.endDate)
    as (Hlen & Hlabel & _); [discriminate | discriminate |].
  split; [exact Hlen|].
  intros ds Hds. exact (Hlabel 1 ds Hds).
Defined.

(** ** The fetcher: alignment on the union of the dates *)

Section fetch_properties.
Import YahooFinance.

Implicit Types (results : list (list StockDataPoint)).
Implicit Types (fetched : list StockDataPoint) (d : string).

Lemma elem_of_addDates (allDates : gset string) fetched d :
  d ∈ foldl (λ allDates point, {[date point]} ∪ allDates) allDates fetched
  ↔ d ∈ allDates ∨ ∃ point, point ∈ fetched ∧ date point = d.
Proof.
  revert allDates. induction fetched as [|p fetched IH]; intros allDates; simpl.
  - split; [by left|]. intros [? | (? & []%elem_of_nil & _)]. done.
  - rewrite IH, elem_of_union, elem_of_singleton. split.
    + intros [[-> | ?] | (q & ? & ?)]; eauto using list_elem_of_here.
      right. exists q. split; [by apply list_elem_of_further | done].
    + intros [? | (q & [-> | ?]%elem_of_cons & ?)]; eauto.
Qed.

(** The set of dates is the union of the dates of all fetched points. *)
Lemma elem_of_collectDates results d :
  d ∈ collectDates results
  ↔ ∃ fetched point, fetched ∈ results ∧ point ∈ fetched ∧ date point = d.
Proof.
  unfold collectDates.
  cut (∀ allDates : gset string,
         d ∈ foldl (λ allDates fetched,
                      foldl (λ allDates point, {[date point]} ∪ allDates)
                            allDates fetched) allDates results
         ↔ d ∈ allDates
           ∨ ∃ fetched point,
               fetched ∈ results ∧ point ∈ fetched ∧ date point = d).
  { intros Hgen. rewrite Hgen. split; [|by right].
    by intros [[]%elem_of_empty | ?]. }
  induction results as [|fetched results IH]; intros allDates; simpl.
  - split; [by left|]. intros [? | (? & ? & []%elem_of_nil & _)]. done.
  - rewrite IH, elem_of_addDates. split.
    + intros [[? | (p & ? & ?)] | (f & p & ? & ? & ?)].
      * by left.
      * right. exists fetched, p. split; [apply list_elem_of_here | done].
      * right. exists f, p. split; [by apply list_elem_of_further | done].
    + intros [? | (f & p & [-> | ?]%elem_of_cons & ? & ?)]; eauto 8.
Qed.

Lemma elem_of_sortDates (allDates : gset string) d :
  d ∈ sortDates allDates ↔ d ∈ allDates.
Proof.
  unfold sortDates. by rewrite merge_sort_Permutation, elem_of_elements.
Qed.

(** Sorted by [≤] and free of repetitions is sorted strictly. *)
Lemma StronglySorted_strict (l : list string) :
  StronglySorted String.le l → NoDup l → StronglySorted (strict String.le) l.
Proof.
  induction 1 as [|a l Hsorted IH Hall]; intros Hnodup; [constructor|].
  apply NoDup_cons in Hnodup as [Hnotin Hnodup].
  constructor; [by apply IH|].
  rewrite Forall_forall in Hall |- *. intros b Hb.
  apply strict_spec_alt. split; [by apply Hall|].
  by intros ->.
Qed.

Lemma sortDates_ascending (allDates : gset string) :
  StronglySorted (strict String.le) (sortDates allDates).
Proof.
  unfold sortDates. apply StronglySorted_strict.
  - apply StronglySorted_merge_sort; apply _.
  - rewrite merge_sort_Permutation. apply NoDup_elements.
Qed.

(** Reading [new Map(entries)]: the value of the last entry with that key. *)
Lemma Map_new_lookup {V : Type} (entries : list (string * V)) k :
  Map_new entries !! k = snd <$> last (filter (λ entry, entry.1 = k) entries).
Proof.
  unfold Map_new.
  induction entries as [|entry entries IH] using rev_ind; [done|].
  rewrite foldl_snoc, filter_app, filter_cons, filter_nil.
  destruct (decide (entry.1 = k)) as [<- | Hne].
  - by rewrite lookup_insert_eq, last_snoc.
  - by rewrite lookup_insert_ne, app_nil_r.
Qed.

(** A point of an aligned series: the close of the last fetched point of
    that day. *)
Lemma alignSeries_close sortedDates fetched point :
  point ∈ alignSeries sortedDates fetched →
  close point
  = last (filter (λ p, date p = date point) fetched) ≫= close.
Proof.
  unfold alignSeries. intros (d & -> & _)%list_elem_of_fmap. simpl.
  rewrite Map_new_lookup.
  cut (last (filter (λ entry : string * option number, entry.1 = d)
               ((λ p, (date p, close p)) <$> fetched))
       = (λ p, (date p, close p))
         <$> last (filter (λ p, date p = d) fetched)).
  { intros ->. by destruct (last _). }
  induction fetched as [|p fetched IH] using rev_ind; [done|].
  rewrite fmap_app, !filter_app. simpl.
  rewrite !filter_cons, !filter_nil. simpl.
  destruct (decide (date p = d)).
  - by rewrite !last_snoc.
  - by rewrite !app_nil_r.
Qed.

Lemma alignSeries_dates sortedDates fetched :
  date <$> alignSeries sortedDates fetched = sortedDates.
Proof.
  unfold alignSeries. rewrite <- list_fmap_compose.
  by rewrite <- (list_fmap_id sortedDates) at 2.
Qed.

End fetch_properties.

Section alignment.
Import YahooFinance.
Context `{parser : DateParser} `{upstream : Upstream}.

(** C10.  [fetchStockData] returns one series for each symbol, in the order
    of the symbols.  There is one list of dates, strictly ascending, made of
    the dates of all the points fetched for all the symbols, and every
    returned series has exactly these dates, in this order: all the series
    have the same length and the same dates.  The close of a returned point
    is the close of the last point fetched for that symbol on that day; it is
    [null] when the symbol has no point, or only points without a close, on
    that day. *)
Theorem fetchStockData_aligned symbols startDate endDate :
  let period1 :=
    Number.floor (Number.div extendedStartDate_getTime (Number.of_Z 1000)) in
  let period2 :=
    Number.floor (Number.div (getTime endDate) (Number.of_Z 1000)) in
  let fetched i symbol := fetchSingleStockData i symbol period1 period2 in
  let out := fetchStockData symbols startDate endDate in
  ∃ sortedDates,
    StronglySorted (strict String.le) sortedDates
    ∧ (∀ d, d ∈ sortedDates
            ↔ ∃ i symbol point,
                symbols !! i = Some symbol
                ∧ point ∈ fetched i symbol
                ∧ date point = d)
    ∧ length out = length symbols
    ∧ (∀ i symbol,
         symbols !! i = Some symbol →
         ∃ series,
           out !! i = Some series
           ∧ date <$> series = sortedDates
           ∧ ∀ point, point ∈ series →
               close point
               = last (filter (λ p, date p = date point) (fetched i symbol))
                 ≫= close
               ∧ ((∀ p, p ∈ fetched i symbol → date p = date point →
                        close p = None)
                  → close point = None))
    ∧ (∀ series, series ∈ out →
         length series = length sortedDates
         ∧ date <$> series = sortedDates).
Proof.
  intros period1 period2 fetched out.
  set (results := imap fetched symbols).
  exists (sortDates (collectDates results)).
  assert (out = alignSeries (sortDates (collectDates results)) <$> results)
    as -> by done.
  split; [apply sortDates_ascending|].
  split; [|split; [|split]].
  - intros d. rewrite elem_of_sortDates, elem_of_collectDates. split.
    + intros (f & point & (i & symbol & -> & ?)%elem_of_lookup_imap & ? & ?).
      by exists i, symbol, point.
    + intros (i & symbol & point & ? & ? & ?).
      exists (fetched i symbol), point.
      split; [by apply elem_of_lookup_imap_2 | done].
  - unfold results. by rewrite length_fmap, length_imap.
  - intros i symbol Hi.
    exists (alignSeries (sortDates (collectDates results))
              (fetched i symbol)).
    split; [|split].
    + unfold results. by rewrite list_lookup_fmap, list_lookup_imap, Hi.
    + apply alignSeries_dates.
    + intros point Hpoint.
      pose proof (alignSeries_close _ _ _ Hpoint) as Hclose.
      split; [exact Hclose|].
      intros Hnone. rewrite Hclose.
      destruct (last _) as [p|] eqn:Hlast; [|done]. simpl.
      apply last_Some_elem_of, list_elem_of_filter in Hlast as [? ?].
      by apply Hnone.
  - intros series (f & -> & _)%list_elem_of_fmap.
    rewrite <- (alignSeries_dates (sortDates (collectDates results)) f) at 2.
    by rewrite length_fmap, alignSeries_dates.
Qed.

End alignment.

(** The two symbols of the sample have three days between them; both series
    come back with the three days, and [null] where the symbol has no quote. *)
Example fetchStockData_sample :
  @YahooFinance.fetchStockData IsoDate.getTime Samples.upstream
    ["ABC"; "XYZ"] Samples.startDate Samples.endDate
  = [ [Samples.point "2024-01-01" 100; Samples.absent "2024-01-02";
       Samples.point "2024-01-03" 121];
      [Samples.absent "2024-01-01"; Samples.point "2024-01-02" 7;
       Samples.absent "2024-01-03"] ].
Proof. vm_compute. reflexivity. Qed.

Lemma fetchStockData_aligned_witness :
  ∃ sortedDates,
    StronglySorted (strict String.le) sortedDates
    ∧ length (@YahooFinance.fetchStockData IsoDate.getTime Samples.upstream
                ["ABC"; "XYZ"] Samples.startDate Samples.endDate) = 2
    ∧ ∀ series,
        series ∈ @YahooFinance.fetchStockData IsoDate.getTime Samples.upstream
                   ["ABC"; "XYZ"] Samples.startDate Samples.endDate →
        date <$> series = sortedDates.
Proof.
  destruct (@fetchStockData_aligned IsoDate.getTime Samples.upstream
              ["ABC"; "XYZ"] Samples.startDate Samples.endDate)
    as (sortedDates & Hsorted & _ & Hlen & _ & Hsame).
  exists sortedDates. split; [exact Hsorted|]. split; [exact Hlen|].
  intros series Hseries. exact (proj2 (Hsame series Hseries)).
Defined.

(** ** The derivation on the heap *)

Section heap_properties.
Import Heap.
Context `{parser : DateParser}.

Implicit Types (h : heap) (l : loc) (refs : list loc).
Implicit Types (raw : list (list StockDataPoint)) (symbols : list string).
Implicit Types (stockData : list StockDataPoint).

Lemma bind_run {A B : Type} (m : M A) (k : A → M B) h a h' :
  m h = Some (a, h') → (m ≫= k) h = k a h'.
Proof. unfold mbind, M_bind. by intros ->. Qed.

(** An allocation leaves every object where it was. *)
Lemma alloc_spec h o :
  ∃ l, alloc o h = Some (l, <[l := o]> h) ∧ h !! l = None ∧ h ⊆ <[l := o]> h.
Proof.
  exists (fresh (dom h)).
  assert (h !! fresh (dom h) = None) as Hfresh
    by apply not_elem_of_dom, is_fresh.
  split; [done|]. split; [done|]. by apply insert_subseteq.
Qed.

Lemma loadPoint_spec h l p :
  h !! l = Some (PointObject p) → loadPoint l h = Some (p, h).
Proof. unfold loadPoint, load, mbind, M_bind. by intros ->. Qed.

Lemma loadSeries_spec h l refs :
  h !! l = Some (SeriesArray refs) → loadSeries l h = Some (refs, h).
Proof. unfold loadSeries, load, mbind, M_bind. by intros ->. Qed.

Lemma loadData_spec h l refs :
  h !! l = Some (DataArray refs) → loadData l h = Some (refs, h).
Proof. unfold loadData, load, mbind, M_bind. by intros ->. Qed.

Lemma loadSymbols_spec h l symbols :
  h !! l = Some (SymbolsArray symbols) → loadSymbols l h = Some (symbols, h).
Proof. unfold loadSymbols, load, mbind, M_bind. by intros ->. Qed.

(** What a reference denotes is not changed by a larger heap. *)
Lemma pointsAt_weaken h h' refs points :
  h ⊆ h' → pointsAt h refs points → pointsAt h' refs points.
Proof.
  intros Hsub Hrefs. eapply Forall2_impl; [exact Hrefs|].
  intros l p Hl. simpl in Hl. by eapply lookup_weaken.
Qed.

Lemma seriesAt_weaken h h' l stockData :
  h ⊆ h' → seriesAt h l stockData → seriesAt h' l stockData.
Proof.
  intros Hsub (refs & Hl & Hrefs). exists refs.
  split; [by eapply lookup_weaken | by eapply pointsAt_weaken].
Qed.

Lemma dataAt_weaken h h' l raw :
  h ⊆ h' → dataAt h l raw → dataAt h' l raw.
Proof.
  intros Hsub (refs & Hl & Hrefs). exists refs.
  split; [by eapply lookup_weaken|].
  eapply Forall2_impl; [exact Hrefs|].
  intros. by eapply seriesAt_weaken.
Qed.

Lemma datasetAt_weaken h h' o d :
  h ⊆ h' → datasetAt h o d → datasetAt h' o d.
Proof.
  intros Hsub (? & ? & ? & ? & ? & ? & ? & ?).
  repeat split; try done. by eapply lookup_weaken.
Qed.

Lemma chartDataAt_weaken h h' o cd :
  h ⊆ h' → chartDataAt h o cd → chartDataAt h' o cd.
Proof.
  intros Hsub (Hlabels & ds & Hds & Hall).
  split; [by eapply lookup_weaken|].
  exists ds. split; [by eapply lookup_weaken|].
  eapply Forall2_impl; [exact Hall|].
  intros. by eapply datasetAt_weaken.
Qed.

(** [filter] with a callback that reads each point: the references kept are
    those of the points that satisfy the predicate, and the heap is as
    before. *)
Lemma filterM_points h refs points (pred : StockDataPoint → bool) :
  pointsAt h refs points →
  ∃ kept,
    filterM (λ l, point ← loadPoint l; mret (pred point)) refs h
    = Some (kept, h)
    ∧ pointsAt h kept (List.filter pred points).
Proof.
  induction 1 as [|l p refs points Hl _ (kept & Hrun & Hkept)]; simpl.
  - exists []. split; [done | constructor].
  - exists (if pred p then l :: kept else kept).
    rewrite (bind_run _ _ h (pred p) h).
    2:{ by rewrite (bind_run _ _ h p h) by by apply loadPoint_spec. }
    rewrite (bind_run _ _ h kept h) by done.
    split; [done|].
    destruct (pred p); [by constructor | done].
Qed.

(** [map] with a callback that reads each point and builds a new object. *)
Lemma imapM_points {B : Type} h refs points (f : StockDataPoint → B) n :
  pointsAt h refs points →
  imapM (λ _ l, point ← loadPoint l; mret (f point)) n refs h
  = Some (f <$> points, h).
Proof.
  intros Hrefs. revert n.
  induction Hrefs as [|l p refs points Hl _ IH]; intros n; simpl; [done|].
  rewrite (bind_run _ _ h (f p) h).
  2:{ by rewrite (bind_run _ _ h p h) by by apply loadPoint_spec. }
  by rewrite (bind_run _ _ h (f <$> points) h) by apply IH.
Qed.

Lemma loadFirst_points h refs points :
  pointsAt h refs points →
  match refs !! 0 with
  | Some pointRef => point ← loadPoint pointRef; mret (Some point)
  | None => mret None
  end h = Some (points !! 0, h).
Proof.
  destruct 1 as [|l p refs points Hl _]; simpl; [done|].
  by rewrite (bind_run _ _ h p h) by by apply loadPoint_spec.
Qed.

(** The callback of [data.map] on the heap builds the dataset of the pure
    callback; it allocates three arrays and writes nowhere else. *)
Lemma toDataset_spec symbols s e i l stockData h :
  seriesAt h l stockData →
  ∃ o h',
    toDataset symbols s e i l h = Some (o, h')
    ∧ h ⊆ h'
    ∧ datasetAt h' o (StockChart.toDataset symbols s e i stockData).
Proof.
  intros (refs & Hl & Hrefs).
  destruct (filterM_points h refs stockData (inWindow s e) Hrefs)
    as (kept & Hfilter & Hkept).
  destruct (alloc_spec h (SeriesArray kept)) as (l1 & Hl1 & _ & Hsub1).
  set (h1 := <[l1 := SeriesArray kept]> h) in *.
  apply (pointsAt_weaken h h1) in Hkept; [|done].
  set (isExchangeRate := bool_decide (symbols !! i = Some "USDJPY=X")).
  set (validData := List.filter (inWindow s e) stockData) in *.
  set (baseValue :=
         if isExchangeRate then Number.of_Z 1
         else default (Number.of_Z 0) (validData !! 0 ≫= close)).
  set (mapped := toChartPoint isExchangeRate baseValue <$> validData).
  destruct (alloc_spec h1 (PointsArray mapped)) as (l2 & Hl2 & _ & Hsub2).
  set (h2 := <[l2 := PointsArray mapped]> h1) in *.
  destruct (alloc_spec h2
              (PointsArray (List.filter (λ cp, notNull (y cp)) mapped)))
    as (l3 & Hl3 & _ & Hsub3).
  eexists _, _. split; [|split].
  - unfold toDataset.
    rewrite (bind_run _ _ h refs h) by by apply loadSeries_spec.
    rewrite (bind_run _ _ h kept h) by exact Hfilter.
    rewrite (bind_run _ _ h l1 h1) by exact Hl1.
    rewrite (bind_run _ _ h1 (validData !! 0) h1)
      by by apply loadFirst_points.
    rewrite (bind_run _ _ h1 mapped h1) by by apply imapM_points.
    rewrite (bind_run _ _ h1 l2 h2) by exact Hl2.
    rewrite (bind_run _ _ h2 l3 _) by exact Hl3.
    reflexivity.
  - by etrans; [|etrans].
  - repeat split; try done. simpl. apply lookup_insert_eq.
Qed.

(** [data.map] on the heap: one dataset object for each series, in order. *)
Lemma imapM_toDataset symbols s e refs raw n h :
  Forall2 (seriesAt h) refs raw →
  ∃ os h',
    imapM (toDataset symbols s e) n refs h = Some (os, h')
    ∧ h ⊆ h'
    ∧ Forall2 (datasetAt h') os
        (imap (λ j, StockChart.toDataset symbols s e (n + j)) raw).
Proof.
  revert raw n h.
  induction refs as [|l refs IH]; intros raw n h Hrefs.
  - apply Forall2_nil_inv_l in Hrefs as ->.
    exists [], h. split; [done|]. split; [done | constructor].
  - apply Forall2_cons_inv_l in Hrefs
      as (stockData & raw' & Hl & Hrefs & ->).
    destruct (toDataset_spec symbols s e n l stockData h Hl)
      as (o & h1 & Hrun1 & Hsub1 & Ho).
    destruct (IH raw' (S n) h1) as (os & h2 & Hrun2 & Hsub2 & Hos).
    { eapply Forall2_impl; [exact Hrefs|].
      intros. by eapply seriesAt_weaken. }
    exists (o :: os), h2. split; [|split].
    + simpl.
      rewrite (bind_run _ _ h o h1) by exact Hrun1.
      by rewrite (bind_run _ _ h1 os h2) by exact Hrun2.
    + by etrans.
    + simpl. constructor.
      * rewrite Nat.add_0_r. by eapply datasetAt_weaken.
      * erewrite imap_ext; [exact Hos|].
        intros j x _. simpl. f_equal. lia.
Qed.

(** The derivation on the heap succeeds whenever the two props are arrays
    of the expected shape, returns an object that reads as the value of the
    pure [chartData], and leaves every object of the heap it started from
    as it was. *)
Lemma chartData_spec dataRef symbolsRef raw symbols startDate endDate h :
  dataAt h dataRef raw →
  symbolsAt h symbolsRef symbols →
  ∃ o h',
    chartData dataRef symbolsRef startDate endDate h = Some (o, h')
    ∧ h ⊆ h'
    ∧ chartDataAt h' o (StockChart.chartData raw symbols startDate endDate).
Proof.
  intros (refs & Hdata & Hrefs) Hsymbols.
  assert (length refs = length raw) as Hlen by by eapply Forall2_length.
  destruct (alloc_spec h (LabelsArray [])) as (l1 & Hl1 & _ & Hsub1).
  set (h1 := <[l1 := LabelsArray []]> h) in *.
  unfold chartData, StockChart.chartData.
  rewrite (bind_run _ _ h refs h) by by apply loadData_spec.
  rewrite (bind_run _ _ h symbols h) by by apply loadSymbols_spec.
  rewrite Hlen.
  destruct ((length raw =? 0) || (length symbols =? 0)).
  - destruct (alloc_spec h1 (DatasetsArray [])) as (l2 & Hl2 & Hfresh2 & Hsub2).
    eexists _, _. split; [|split].
    + rewrite (bind_run _ _ h l1 h1) by exact Hl1.
      rewrite (bind_run _ _ h1 l2 _) by exact Hl2.
      reflexivity.
    + by etrans.
    + split; simpl.
      * eapply lookup_weaken; [apply lookup_insert_eq | exact Hsub2].
      * exists []. split; [apply lookup_insert_eq | constructor].
  - destruct (imapM_toDataset symbols (getTime startDate) (getTime endDate)
                refs raw 0 h1) as (os & h2 & Hrun & Hsub2 & Hos).
    { eapply Forall2_impl; [exact Hrefs|].
      intros. by eapply seriesAt_weaken. }
    destruct (alloc_spec h2 (DatasetsArray os)) as (l3 & Hl3 & Hfresh3 & Hsub3).
    eexists _, _. split; [|split].
    + rewrite (bind_run _ _ h l1 h1) by exact Hl1.
      rewrite (bind_run _ _ h1 os h2) by exact Hrun.
      rewrite (bind_run _ _ h2 l3 _) by exact Hl3.
      reflexivity.
    + by etrans; [|etrans].
    + split; simpl.
      * eapply lookup_weaken; [apply lookup_insert_eq|]. by etrans.
      * exists os. split; [apply lookup_insert_eq|].
        eapply Forall2_impl; [exact Hos|].
        intros. by eapply datasetAt_weaken.
Qed.

(** An object reads as one value only. *)
Lemma datasetAt_inj h o d1 d2 :
  datasetAt h o d1 → datasetAt h o d2 → d1 = d2.
Proof.
  destruct d1, d2. unfold datasetAt. simpl.
  intros (? & ? & ? & ? & ? & ? & ? & ?) (? & ? & ? & ? & ? & ? & ? & ?).
  f_equal; congruence.
Qed.

Lemma chartDataAt_inj h o cd1 cd2 :
  chartDataAt h o cd1 → chartDataAt h o cd2 → cd1 = cd2.
Proof.
  destruct cd1 as [labels1 datasets1], cd2 as [labels2 datasets2].
  unfold chartDataAt. simpl.
  intros (Hl1 & ds1 & Hd1 & Hall1) (Hl2 & ds2 & Hd2 & Hall2).
  assert (ds2 = ds1) as -> by congruence.
  f_equal; [congruence|].
  clear Hd1 Hd2. revert datasets2 Hall2.
  induction Hall1 as [|o' d1 ds1 datasets1 Ho' _ IH]; intros datasets2 Hall2.
  - by apply Forall2_nil_inv_l in Hall2.
  - apply Forall2_cons_inv_l in Hall2 as (d2 & datasets2' & Ho2 & Hall2 & ->).
    f_equal; [by eapply datasetAt_inj | by apply IH].
Qed.

(** C9.  Run on a heap where [data] and [symbols] are arrays of the expected
    shape, the derivation returns; run again on the heap it left, it returns
    again.  Every object that was on the heap before the first run is the
    same after both, so the props still read as the same series and symbols;
    and the two objects returned, which are new, read as one and the same
    value, the one the pure [chartData] gives for these series, symbols and
    dates. *)
Theorem chartData_pure dataRef symbolsRef raw symbols startDate endDate h :
  dataAt h dataRef raw →
  symbolsAt h symbolsRef symbols →
  ∃ o1 h1 o2 h2,
    chartData dataRef symbolsRef startDate endDate h = Some (o1, h1)
    ∧ chartData dataRef symbolsRef startDate endDate h1 = Some (o2, h2)
    ∧ (∀ l obj, h !! l = Some obj →
                h1 !! l = Some obj ∧ h2 !! l = Some obj)
    ∧ dataAt h2 dataRef raw
    ∧ symbolsAt h2 symbolsRef symbols
    ∧ chartDataAt h2 o1 (StockChart.chartData raw symbols startDate endDate)
    ∧ chartDataAt h2 o2 (StockChart.chartData raw symbols startDate endDate)
    ∧ (∀ cd1 cd2, chartDataAt h2 o1 cd1 → chartDataAt h2 o2 cd2 → cd1 = cd2).
Proof.
  intros Hdata Hsymbols.
  destruct (chartData_spec dataRef symbolsRef raw symbols startDate endDate h
              Hdata Hsymbols) as (o1 & h1 & Hrun1 & Hsub1 & Ho1).
  destruct (chartData_spec dataRef symbolsRef raw symbols startDate endDate h1)
    as (o2 & h2 & Hrun2 & Hsub2 & Ho2).
  { by eapply dataAt_weaken. }
  { by eapply lookup_weaken. }
  assert (chartDataAt h2 o1
            (StockChart.chartData raw symbols startDate endDate)) as Ho1'
    by by eapply chartDataAt_weaken.
  exists o1, h1, o2, h2.
  split; [done|]. split; [done|]. split; [|split; [|split; [|split; [|split]]]].
  - intros l obj Hl. split.
    + by eapply lookup_weaken.
    + eapply lookup_weaken; [|exact Hsub2]. by eapply lookup_weaken.
  - eapply dataAt_weaken; [|exact Hdata]. by etrans.
  - eapply lookup_weaken; [exact Hsymbols|]. by etrans.
  - done.
  - done.
  - intros cd1 cd2 Hcd1 Hcd2.
    rewrite (chartDataAt_inj h2 o1 cd1 _ Hcd1 Ho1').
    by rewrite (chartDataAt_inj h2 o2 cd2 _ Hcd2 Ho2).
Qed.

End heap_properties.

Lemma chartData_pure_witness :
  ∃ o1 h1 o2 h2,
    @Heap.chartData IsoDate.getTime 3 4 Samples.startDate Samples.endDate
      Samples.heap = Some (o1, h1)
    ∧ @Heap.chartData IsoDate.getTime 3 4 Samples.startDate Samples.endDate
        h1 = Some (o2, h2)
    ∧ h2 !! 2 = Some (Heap.SeriesArray [0; 1])
    ∧ Heap.chartDataAt h2 o1
        (Samples.chart [[Samples.point "2024-01-01" 100;
                         Samples.point "2024-01-02" 110]] ["ABC"]
           Samples.startDate Samples.endDate)
    ∧ Heap.chartDataAt h2 o2
        (Samples.chart [[Samples.point "2024-01-01" 100;
                         Samples.point "2024-01-02" 110]] ["ABC"]
           Samples.startDate Samples.endDate).
Proof.
  destruct (@chartData_pure IsoDate.getTime 3 4
              [[Samples.point "2024-01-01" 100; Samples.point "2024-01-02" 110]]
              ["ABC"] Samples.startDate Samples.endDate Samples.heap)
    as (o1 & h1 & o2 & h2 & Hrun1 & Hrun2 & Hkeep & _ & _ & Ho1 & Ho2 & _).
  - exists [2]. split; [reflexivity|].
    constructor; [|constructor].
    exists [0; 1]. split; [reflexivity|].
    constructor; [reflexivity|]. constructor; [reflexivity | constructor].
  - reflexivity.
  - exists o1, h1, o2, h2.
    split; [exact Hrun1|]. split; [exact Hrun2|].
    split; [apply (Hkeep 2); reflexivity|].
    split; [exact Ho1 | exact Ho2].
Defined.

(** * Further properties *)

(** ** [findNextTradingDay] *)

Section trading_day.
Import TradingDay.

Implicit Types (data : list StockDataPoint) (startDate : string).

Lemma StronglySorted_lookup_le {A : Type} (R : relation A) `{!Reflexive R}
    (l : list A) i j x y :
  StronglySorted R l → i ≤ j → l !! i = Some x → l !! j = Some y → R x y.
Proof.
  intros Hsorted. revert i j.
  induction Hsorted as [|a l Hsorted IH Hall]; intros i j Hij Hi Hj; [done|].
  destruct i as [|i], j as [|j]; simpl in *; try lia.
  - by simplify_eq.
  - simplify_eq. rewrite Forall_forall in Hall.
    by eapply Hall, list_elem_of_lookup_2.
  - eapply (IH i j); [lia | done | done].
Qed.

(** Either no date of the series is on or after [startDate], and the result
    is [startDate]; or the result is a date of the series on or after
    [startDate], and no such date is before it. *)
Lemma findNextTradingDay_spec data startDate :
  (findNextTradingDay data startDate = startDate
   ∧ ∀ point, point ∈ data → ¬ String.le startDate (date point))
  ∨ (String.le startDate (findNextTradingDay data startDate)
     ∧ (∃ point, point ∈ data
                 ∧ date point = findNextTradingDay data startDate)
     ∧ ∀ point, point ∈ data → String.le startDate (date point) →
                String.le (findNextTradingDay data startDate) (date point)).
Proof.
  unfold findNextTradingDay.
  destruct data as [|p0 data0]; [left; split; [done|]; by intros ? ?%elem_of_nil|].
  set (data := p0 :: data0). simpl length. cbn [Nat.eqb].
  set (sortedDates := merge_sort String.le (date <$> data)).
  assert (∀ d, d ∈ sortedDates ↔ ∃ point, point ∈ data ∧ date point = d)
    as Hdates.
  { intros d. unfold sortedDates.
    rewrite merge_sort_Permutation, list_elem_of_fmap.
    split; [intros (p & -> & ?) | intros (p & ? & <-)]; eauto. }
  assert (StronglySorted String.le sortedDates) as Hsorted
    by (apply StronglySorted_merge_sort; apply _).
  destruct (list_find _ sortedDates) as [[i next]|] eqn:Hfind.
  - apply list_find_Some in Hfind as (Hi & Hnext & Hleast).
    right. split; [done|]. split.
    + apply Hdates. by eapply list_elem_of_lookup_2.
    + intros point Hpoint Hle.
      assert (date point ∈ sortedDates) as [j Hj]%list_elem_of_lookup_1
        by (apply Hdates; eauto).
      destruct (decide (j < i)) as [Hlt | Hge].
      * by destruct (Hleast j (date point) Hj Hlt).
      * eapply (StronglySorted_lookup_le String.le sortedDates i j);
          [done | lia | done | done].
  - left. split; [done|].
    apply list_find_None in Hfind. rewrite Forall_forall in Hfind.
    intros point Hpoint. apply Hfind, Hdates. eauto.
Qed.

(** X1.  The result is never before [startDate].  When the series has a
    date on or after [startDate], the result is the earliest such date;
    when it has none, and when it is empty, the result is [startDate]. *)
Theorem findNextTradingDay_least data startDate :
  String.le startDate (findNextTradingDay data startDate)
  ∧ ((∃ point, point ∈ data ∧ String.le startDate (date point)) →
     (∃ point, point ∈ data
               ∧ date point = findNextTradingDay data startDate)
     ∧ ∀ point, point ∈ data → String.le startDate (date point) →
                String.le (findNextTradingDay data startDate) (date point))
  ∧ ((∀ point, point ∈ data → ¬ String.le startDate (date point)) →
     findNextTradingDay data startDate = startDate)
  ∧ findNextTradingDay [] startDate = startDate.
Proof.
  destruct (findNextTradingDay_spec data startDate)
    as [[Heq Hnone] | (Hle & Hin & Hleast)].
  - split; [by rewrite Heq|]. split; [|done].
    intros (point & Hpoint & Hge). by destruct (Hnone point Hpoint).
  - split; [done|]. split; [done|]. split; [|done].
    intros Hnone. destruct Hin as (point & Hpoint & Hdate).
    destruct (Hnone point Hpoint). by rewrite Hdate.
Qed.

(** X2.  Asking again from the day that was found finds the same day. *)
Theorem findNextTradingDay_idempotent data startDate :
  findNextTradingDay data (findNextTradingDay data startDate)
  = findNextTradingDay data startDate.
Proof.
  destruct (findNextTradingDay_spec data startDate)
    as [[Heq Hnone] | (Hle & (point & Hpoint & Hdate) & Hleast)].
  - by rewrite !Heq.
  - set (next := findNextTradingDay data startDate) in *.
    destruct (findNextTradingDay_spec data next)
      as [[Heq' Hnone'] | (Hle' & _ & Hleast')]; [done|].
    apply (anti_symm String.le); [|done].
    rewrite <- Hdate at 2. apply Hleast'; [done|]. by rewrite Hdate.
Qed.

(** X3.  A later start never gives an earlier day. *)
Theorem findNextTradingDay_monotone data startDate1 startDate2 :
  String.le startDate1 startDate2 →
  String.le (findNextTradingDay data startDate1)
            (findNextTradingDay data startDate2).
Proof.
  intros Hle.
  destruct (findNextTradingDay_spec data startDate2)
    as [[Heq2 Hnone2] | (Hle2 & (p2 & Hp2 & Hdate2) & Hleast2)].
  - rewrite Heq2.
    destruct (findNextTradingDay_spec data startDate1)
      as [[Heq1 Hnone1] | (Hle1 & (p1 & Hp1 & Hdate1) & Hleast1)].
    + by rewrite Heq1.
    + rewrite <- Hdate1.
      destruct (total String.le (date p1) startDate2) as [? | Hge]; [done|].
      by destruct (Hnone2 p1 Hp1).
  - destruct (findNextTradingDay_spec data startDate1)
      as [[Heq1 Hnone1] | (Hle1 & _ & Hleast1)].
    + rewrite Heq1. by trans startDate2.
    + rewrite <- Hdate2. apply Hleast1; [done|].
      rewrite Hdate2. by trans startDate2.
Qed.

End trading_day.

(** ** [fetchSingleStockData] *)

Section single_fetch.
Import SingleFetch.
Context `{runtime : Runtime} `{provider : Provider}.

Implicit Types (prices : option (list (option number))).
Implicit Types (ps : list (option number)) (ts : list number).

Lemma mapPoints_Some ps ts n :
  n + length ts ≤ length ps →
  (∀ t, t ∈ ts → is_Some (toISODate (Number.mul t (Number.of_Z 1000)))) →
  ∃ points,
    mapPoints (Some ps) n ts = Some points
    ∧ length points = length ts
    ∧ ∀ i t p,
        ts !! i = Some t → ps !! (n + i) = Some p →
        ∃ d, toISODate (Number.mul t (Number.of_Z 1000)) = Some d
             ∧ points !! i = Some {| date := d; close := toFixed4 <$> p |}.
Proof.
  revert n. induction ts as [|t ts IH]; intros n Hlen Hdays.
  - exists []. split; [done|]. split; [done|]. by intros [|i] ? ? ?.
  - simpl in Hlen.
    destruct (Hdays t) as [d Hd]; [apply list_elem_of_here|].
    destruct (lookup_lt_is_Some_2 ps n) as [p Hp]; [lia|].
    destruct (IH (S n)) as (points & Hrun & Hlength & Hpoints); [lia | |].
    { intros t' Ht'. apply Hdays. by apply list_elem_of_further. }
    exists ({| date := d; close := toFixed4 <$> p |} :: points).
    split; [|split].
    + simpl. unfold toPoint. rewrite Hd. simpl. rewrite Hp. simpl.
      by rewrite Hrun.
    + simpl. by rewrite Hlength.
    + intros [|i] t' p' Ht' Hp'.
      * rewrite Nat.add_0_r in Hp'. simpl in Ht'. simplify_eq. eauto.
      * simpl in Ht'. apply (Hpoints i t' p' Ht').
        by replace (S n + i) with (n + S i) by lia.
Qed.

(** One entry that cannot be converted makes the whole [map] fail. *)
Lemma mapPoints_None prices ts n i t :
  ts !! i = Some t →
  prices = None
  ∨ (∃ ps, prices = Some ps ∧ ps !! (n + i) = None)
  ∨ toISODate (Number.mul t (Number.of_Z 1000)) = None →
  mapPoints prices n ts = None.
Proof.
  revert n i. induction ts as [|t0 ts IH]; intros n i Hi Hbad; [done|].
  destruct i as [|i]; simpl in Hi.
  - simplify_eq. simpl. unfold toPoint.
    destruct (toISODate _) as [d|]; [|done]. simpl.
    destruct Hbad as [-> | [(ps & -> & Hp) | ?]]; [done | | done].
    rewrite Nat.add_0_r in Hp. simpl. by rewrite Hp.
  - simpl. destruct (toPoint prices n t0); [|done]. simpl.
    rewrite (IH (S n) i); [done | done |].
    destruct Hbad as [? | [(ps & ? & Hp) | ?]]; auto.
    right; left. exists ps. split; [done|].
    by replace (S n + i) with (n + S i) by lia.
Qed.

(** X4.  When the answer has both arrays, a price entry for every timestamp
    and a day for every timestamp, the series has one point for each
    timestamp, in order: its day, and its price rounded, or [null] where
    the price is [null]. *)
Theorem fetchSingleStockData_points symbol startDate endDate ps ts :
  axios_get symbol startDate endDate = Result (Some ps) (Some ts) →
  length ts ≤ length ps →
  (∀ t, t ∈ ts → is_Some (toISODate (Number.mul t (Number.of_Z 1000)))) →
  length (fetchSingleStockData symbol startDate endDate) = length ts
  ∧ ∀ i t p,
      ts !! i = Some t → ps !! i = Some p →
      ∃ d, toISODate (Number.mul t (Number.of_Z 1000)) = Some d
           ∧ fetchSingleStockData symbol startDate endDate !! i
             = Some {| date := d; close := toFixed4 <$> p |}.
Proof.
  intros Hanswer Hlen Hdays.
  destruct (mapPoints_Some ps ts 0) as (points & Hrun & Hlength & Hpoints);
    [done | done |].
  unfold fetchSingleStockData. rewrite Hanswer. simpl. rewrite Hrun. simpl.
  split; [done|]. intros i t p Ht Hp. by apply Hpoints.
Qed.

(** X5.  In every other case the series is empty: when the request fails,
    when the timestamps are missing, when prices are missing or fewer than
    the timestamps, and when one timestamp has no day.  One such entry
    discards all the points. *)
Theorem fetchSingleStockData_all_or_nothing symbol startDate endDate :
  axios_get symbol startDate endDate = NoResult
  ∨ (∃ prices, axios_get symbol startDate endDate = Result prices None)
  ∨ (∃ prices ts,
       axios_get symbol startDate endDate = Result prices (Some ts)
       ∧ ((prices = None ∧ ts ≠ [])
          ∨ (∃ ps, prices = Some ps ∧ length ps < length ts)
          ∨ (∃ t, t ∈ ts
                  ∧ toISODate (Number.mul t (Number.of_Z 1000)) = None))) →
  fetchSingleStockData symbol startDate endDate = [].
Proof.
  unfold fetchSingleStockData.
  intros [-> | [(prices & ->) | (prices & ts & -> & Hbad)]]; [done | done |].
  simpl.
  destruct Hbad as [[-> Hts] | [(ps & -> & Hlen) | (t & Ht & Hday)]].
  - destruct ts as [|t ts]; [done|].
    by rewrite (mapPoints_None None (t :: ts) 0 0 t) by auto.
  - destruct (lookup_lt_is_Some_2 ts (length ps)) as [t Ht]; [done|].
    rewrite (mapPoints_None (Some ps) ts 0 (length ps) t); [done | done |].
    right; left. exists ps. split; [done|]. by apply lookup_ge_None_2.
  - apply list_elem_of_lookup_1 in Ht as [i Hi].
    by rewrite (mapPoints_None prices ts 0 i t) by auto.
Qed.

End single_fetch.

Section failed_symbol.
Import SingleFetch.
Context `{parser : DateParser} `{runtime : Runtime} `{provider : Provider}.

(** The window keeps no point of a series without a single close. *)
Lemma filter_inWindow_absent s e (series : list StockDataPoint) :
  Forall (λ point, close point = None) series →
  List.filter (inWindow s e) series = [].
Proof.
  induction 1 as [|point series Hpoint _ IH]; [done|].
  cbn [List.filter]. unfold inWindow at 1. by rewrite Hpoint.
Qed.

(** X6.  A symbol whose series could not be fetched still gets a series
    from [fetchStockData]: it has the dates of all the other series and no
    close at all.  In the chart of the returned data, the dataset of that
    symbol carries its label and has no point, whatever the window. *)
Theorem failed_symbol_blank clock symbols startDate endDate i symbol :
  let period1 := Number.floor (Number.div clock (Number.of_Z 1000)) in
  let period2 :=
    Number.floor (Number.div (getTime endDate) (Number.of_Z 1000)) in
  let out :=
    @YahooFinance.fetchStockData parser (upstream clock)
      symbols startDate endDate in
  symbols !! i = Some symbol →
  fetchSingleStockData symbol period1 period2 = [] →
  ∃ series,
    out !! i = Some series
    ∧ Forall (λ point, close point = None) series
    ∧ (∀ other, other ∈ out → date <$> other = date <$> series)
    ∧ ∀ chartStart chartEnd ds,
        datasets (chartData out symbols chartStart chartEnd) !! i = Some ds →
        label ds = Some symbol ∧ data ds = [].
Proof.
  intros period1 period2 out Hi Hfailed.
  set (results := imap (λ (_ : nat) symbol,
                          fetchSingleStockData symbol period1 period2)
                       symbols).
  set (sortedDates :=
         YahooFinance.sortDates (YahooFinance.collectDates results)).
  assert (out = YahooFinance.alignSeries sortedDates <$> results) as Hout
    by reflexivity.
  clearbody out. subst out.
  assert (Forall (λ point, close point = None)
            (YahooFinance.alignSeries sortedDates [])) as Hnull.
  { apply Forall_forall. intros point Hpoint.
    by rewrite (alignSeries_close sortedDates [] point Hpoint). }
  exists (YahooFinance.alignSeries sortedDates []).
  split; [|split; [done|split]].
  - unfold results.
    rewrite list_lookup_fmap, list_lookup_imap, Hi. simpl.
    by rewrite Hfailed.
  - intros other (fetched & -> & _)%list_elem_of_fmap.
    by rewrite !alignSeries_dates.
  - intros chartStart chartEnd ds (stockData & Hout & ->)%chartData_lookup.
    assert (stockData = YahooFinance.alignSeries sortedDates []) as ->.
    { unfold results in Hout at 1.
      rewrite list_lookup_fmap, list_lookup_imap, Hi in Hout.
      simpl in Hout. rewrite Hfailed in Hout. by simplify_eq. }
    split; [done|].
    by rewrite toDataset_data, filter_inWindow_absent.
Qed.

End failed_symbol.


(** ** The parameters that the route reads from the URL of [fetchData] *)

Section url.
Import Url.

Lemma all_app test s1 s2 :
  all test (s1 +:+ s2) = all test s1 && all test s2.
Proof.
  induction s1 as [|c s1 IH]; [done|].
  simpl. by rewrite IH, andb_assoc.
Qed.

Lemma all_impl (test1 test2 : ascii → bool) s :
  (∀ c, test1 c = true → test2 c = true) →
  all test1 s = true → all test2 s = true.
Proof.
  intros Himpl. induction s as [|c s IH]; [done|].
  cbn [all]. intros [Hc Hs]%andb_true_iff. by rewrite (Himpl c Hc), IH.
Qed.

Lemma append_associative (s1 s2 s3 : string) :
  (s1 +:+ s2) +:+ s3 = s1 +:+ (s2 +:+ s3).
Proof.
  induction s1 as [|c s1 IH]; [done|].
  change (String c ((s1 +:+ s2) +:+ s3) = String c (s1 +:+ (s2 +:+ s3))).
  by rewrite IH.
Qed.

Lemma kept_spec c :
  kept c = true →
  isC0ControlOrSpace c = false
  ∧ isTabOrNewline c = false
  ∧ Ascii.eqb c "#" = false.
Proof.
  destruct c as [[] [] [] [] [] [] [] []]; intros Hkept;
    first [discriminate Hkept | by vm_compute].
Qed.

Lemma plain_kept c : plain c = true → kept c = true.
Proof.
  destruct c as [[] [] [] [] [] [] [] []]; intros Hplain;
    first [discriminate Hplain | by vm_compute].
Qed.

(** What a plain character becomes in the query, and what is read back
    from it. *)
Lemma plain_encoded c :
  plain c = true →
  all (λ c', negb (Ascii.eqb c' "&")) (encodeByte c) = true
  ∧ (∀ rest, plusToSpace (encodeByte c +:+ rest)
             = encodeByte c +:+ plusToSpace rest)
  ∧ (∀ rest, percentDecode (encodeByte c +:+ rest)
             = String c (percentDecode rest))
  ∧ (∀ rest, utf8Decode 0 "" 128 191 (String c rest)
             = String c (utf8Decode 0 "" 128 191 rest)).
Proof.
  destruct c as [[] [] [] [] [] [] [] []]; intros Hplain;
    first [discriminate Hplain | by repeat split].
Qed.

Lemma stripLeading_kept s : all kept s = true → stripLeading s = s.
Proof.
  destruct s as [|c s]; [done|]. cbn [all stripLeading].
  intros [Hc _]%andb_true_iff.
  by destruct (kept_spec c Hc) as (-> & _).
Qed.

Lemma stripTrailing_kept s : all kept s = true → stripTrailing s = s.
Proof.
  induction s as [|c s IH]; [done|]. cbn [all stripTrailing].
  intros [Hc Hs]%andb_true_iff. rewrite IH by done.
  destruct (kept_spec c Hc) as (-> & _). by destruct s.
Qed.

Lemma removeTabOrNewline_kept s :
  all kept s = true → removeTabOrNewline s = s.
Proof.
  induction s as [|c s IH]; [done|]. cbn [all removeTabOrNewline].
  intros [Hc Hs]%andb_true_iff. rewrite IH by done.
  by destruct (kept_spec c Hc) as (_ & -> & _).
Qed.

Lemma before_hash_kept s : all kept s = true → before "#" s = s.
Proof.
  induction s as [|c s IH]; [done|]. cbn [all before].
  intros [Hc Hs]%andb_true_iff. rewrite IH by done.
  by destruct (kept_spec c Hc) as (_ & _ & ->).
Qed.

Lemma percentEncode_app s1 s2 :
  percentEncode (s1 +:+ s2) = percentEncode s1 +:+ percentEncode s2.
Proof.
  induction s1 as [|c s1 IH]; [done|].
  simpl. by rewrite IH, append_associative.
Qed.

(** Parsing the serialised URL once more, as the server does, leaves the
    query as it is. *)
Lemma percentEncode_idempotent s :
  percentEncode (percentEncode s) = percentEncode s.
Proof.
  assert (∀ c rest, percentEncode (encodeByte c +:+ rest)
                    = encodeByte c +:+ percentEncode rest) as Hbyte.
  { intros c rest. by destruct c as [[] [] [] [] [] [] [] []]. }
  induction s as [|c s IH]; [done|].
  cbn [percentEncode]. by rewrite Hbyte, IH.
Qed.

Lemma percentEncode_plain s :
  all plain s = true →
  all (λ c, negb (Ascii.eqb c "&")) (percentEncode s) = true
  ∧ decode (percentEncode s) = s.
Proof.
  intros Hs.
  assert (all (λ c, negb (Ascii.eqb c "&")) (percentEncode s) = true
          ∧ plusToSpace (percentEncode s) = percentEncode s
          ∧ percentDecode (percentEncode s) = s
          ∧ utf8Decode 0 "" 128 191 s = s) as (Hamp & Hplus & Hpercent & Hutf8).
  { induction s as [|c s IH]; [done|].
    cbn [all] in Hs. apply andb_true_iff in Hs as [Hc Hs].
    destruct (IH Hs) as (IHamp & IHplus & IHpercent & IHutf8).
    destruct (plain_encoded c Hc) as (Hamp & Hplus & Hpercent & Hutf8).
    cbn [percentEncode]. split; [|split; [|split]].
    - by rewrite all_app, Hamp, IHamp.
    - by rewrite Hplus, IHplus.
    - by rewrite Hpercent, IHpercent.
    - by rewrite Hutf8, IHutf8. }
  split; [done|]. unfold decode. by rewrite Hplus, Hpercent.
Qed.

(** Splitting at a character that the first piece does not have. *)
Lemma split_piece separator s rest :
  all (λ c, negb (Ascii.eqb c separator)) s = true →
  StockDataRoute.split separator (s +:+ String separator rest)
  = s :: StockDataRoute.split separator rest.
Proof.
  induction s as [|c s IH]; intros Hs.
  - simpl. by rewrite Ascii.eqb_refl.
  - cbn [all] in Hs. apply andb_true_iff in Hs as [Hc Hs].
    apply negb_true_iff in Hc. simpl. by rewrite Hc, IH.
Qed.

Lemma split_last separator s :
  all (λ c, negb (Ascii.eqb c separator)) s = true →
  StockDataRoute.split separator s = [s].
Proof.
  induction s as [|c s IH]; intros Hs; [done|].
  cbn [all] in Hs. apply andb_true_iff in Hs as [Hc Hs].
  apply negb_true_iff in Hc. simpl. by rewrite Hc, IH.
Qed.

(** The route reads from the URL of [fetchData] the three strings that were
    put into it, when they are made of plain characters. *)
Lemma searchParams_fetchData_url query :
  all plain (Home.query_symbols query) = true →
  all plain (Home.query_startDate query) = true →
  all plain (Home.query_endDate query) = true →
  searchParams (Home.fetchData_url query)
  = [ ("symbols", Home.query_symbols query);
      ("startDate", Home.query_startDate query);
      ("endDate", Home.query_endDate query) ].
Proof.
  destruct query as [sy st en].
  cbn [Home.query_symbols Home.query_startDate Home.query_endDate].
  intros Hsy Hst Hen.
  destruct (percentEncode_plain sy Hsy) as [Hsy_amp Hsy_decode].
  destruct (percentEncode_plain st Hst) as [Hst_amp Hst_decode].
  destruct (percentEncode_plain en Hen) as [Hen_amp Hen_decode].
  unfold searchParams, query, Home.fetchData_url.
  cbn [Home.query_symbols Home.query_startDate Home.query_endDate].
  set (url := "/api/stockData?symbols=" +:+ sy +:+ "&startDate=" +:+ st
              +:+ "&endDate=" +:+ en).
  assert (all kept url = true) as Hkept.
  { unfold url. rewrite !all_app.
    rewrite (all_impl plain kept sy plain_kept Hsy).
    rewrite (all_impl plain kept st plain_kept Hst).
    by rewrite (all_impl plain kept en plain_kept Hen). }
  rewrite stripLeading_kept, stripTrailing_kept, removeTabOrNewline_kept,
    before_hash_kept by done.
  change (after "?" url)
    with (Some ("symbols=" +:+ sy +:+ "&startDate=" +:+ st
                +:+ "&endDate=" +:+ en)).
  cbn [fmap option_fmap option_map].
  rewrite !percentEncode_app.
  change (percentEncode "symbols=") with "symbols=".
  change (percentEncode "&startDate=") with "&startDate=".
  change (percentEncode "&endDate=") with "&endDate=".
  unfold parseUrlencoded.
  change ("&startDate=" +:+ percentEncode st +:+ "&endDate=" +:+ percentEncode en)
    with (String "&" ("startDate=" +:+ percentEncode st +:+ String "&" ("endDate=" +:+ percentEncode en))).
  rewrite <- !append_associative.
  rewrite (split_piece "&" ("symbols=" +:+ percentEncode sy))
    by (by rewrite all_app, Hsy_amp).
  rewrite (split_piece "&" ("startDate=" +:+ percentEncode st))
    by (by rewrite all_app, Hst_amp).
  rewrite (split_last "&" ("endDate=" +:+ percentEncode en))
    by (by rewrite all_app, Hen_amp).
  cbn [List.filter].
  change ("symbols=" +:+ percentEncode sy =? "")%string with false.
  change ("startDate=" +:+ percentEncode st =? "")%string with false.
  change ("endDate=" +:+ percentEncode en =? "")%string with false.
  cbn [negb fmap list_fmap].
  change (before "=" ("symbols=" +:+ percentEncode sy)) with "symbols".
  change (before "=" ("startDate=" +:+ percentEncode st)) with "startDate".
  change (before "=" ("endDate=" +:+ percentEncode en)) with "endDate".
  change (after "=" ("symbols=" +:+ percentEncode sy))
    with (Some (percentEncode sy)).
  change (after "=" ("startDate=" +:+ percentEncode st))
    with (Some (percentEncode st)).
  change (after "=" ("endDate=" +:+ percentEncode en))
    with (Some (percentEncode en)).
  change (default "" (Some (percentEncode sy))) with (percentEncode sy).
  change (default "" (Some (percentEncode st))) with (percentEncode st).
  change (default "" (Some (percentEncode en))) with (percentEncode en).
  rewrite Hsy_decode, Hst_decode, Hen_decode.
  reflexivity.
Qed.

Lemma all_plain_concat symbols :
  Forall (λ symbol, all plain symbol = true) symbols →
  all plain (String.concat "," symbols) = true.
Proof.
  induction 1 as [|symbol symbols Hsymbol Hall IH]; [done|].
  destruct symbols as [|symbol' symbols]; [done|].
  change (String.concat "," (symbol :: symbol' :: symbols))
    with (symbol +:+ String "," (String.concat "," (symbol' :: symbols))).
  rewrite all_app, Hsymbol. cbn [all andb]. by rewrite IH.
Qed.

End url.

(** ** The route, and the query that [Home] sends to it *)

Section route.
Import StockDataRoute.
Context `{parser : DateParser} `{upstream : YahooFinance.Upstream}.

Lemma includes_comma c rest :
  TickerSearch.includes (String c rest) ","
  = Ascii.eqb c "," || TickerSearch.includes rest ",".
Proof.
  cbn [TickerSearch.includes String.prefix].
  destruct (ascii_dec "," c) as [<- | Hne]; [by destruct rest|].
  destruct (Ascii.eqb_spec c ","); [congruence | done].
Qed.

Lemma split_nonempty separator s : split separator s ≠ [].
Proof.
  destruct s as [|c s]; simpl; [done|].
  destruct (Ascii.eqb c separator); [done|].
  by destruct (split separator s).
Qed.

(** A string without a comma is one piece. *)
Lemma split_one s :
  TickerSearch.includes s "," = false → split "," s = [s].
Proof.
  induction s as [|c s IH]; [done|].
  rewrite includes_comma. intros [Hc Hs]%orb_false_iff.
  simpl. rewrite Hc, IH; done.
Qed.

Lemma split_app s rest :
  TickerSearch.includes s "," = false →
  split "," (s +:+ String "," rest) = s :: split "," rest.
Proof.
  induction s as [|c s IH]; [done|].
  rewrite includes_comma. intros [Hc Hs]%orb_false_iff.
  simpl. rewrite Hc, IH; done.
Qed.

(** Splitting at the commas undoes joining with commas. *)
Lemma split_concat symbols :
  symbols ≠ [] →
  Forall (λ symbol, TickerSearch.includes symbol "," = false) symbols →
  split "," (String.concat "," symbols) = symbols.
Proof.
  intros Hne Hall. induction Hall as [|symbol symbols Hsymbol Hall IH]; [done|].
  destruct symbols as [|symbol' symbols]; [by apply split_one|].
  change (String.concat "," (symbol :: symbol' :: symbols))
    with (symbol +:+ String "," (String.concat "," (symbol' :: symbols))).
  rewrite split_app by done. by rewrite IH.
Qed.

Lemma split_length s :
  length (split "," s)
  = S (length (List.filter (Ascii.eqb ",") (String.list_ascii_of_string s))).
Proof.
  induction s as [|c s IH]; [done|].
  cbn [split String.list_ascii_of_string List.filter].
  rewrite (Ascii.eqb_sym "," c).
  destruct (Ascii.eqb c ","); [by rewrite length_cons, IH|].
  pose proof (split_nonempty "," s).
  destruct (split "," s); [done|]. by rewrite <- IH.
Qed.

Lemma fetchStockData_length symbols startDate endDate :
  length (YahooFinance.fetchStockData symbols startDate endDate)
  = length symbols.
Proof.
  unfold YahooFinance.fetchStockData. by rewrite length_fmap, length_imap.
Qed.

(** X7.  A parameter that is absent or empty is answered with status 400
    and the error ['Missing required parameters'].  Three non-empty
    parameters are answered with status 200 and as many series as the
    [symbols] parameter has commas, plus one: an empty piece between two
    commas, or after the last, is a symbol of its own. *)
Theorem GET_responses symbols startDate endDate :
  (missing symbols = true ∨ missing startDate = true
   ∨ missing endDate = true →
   GET symbols startDate endDate
   = {| status := 400; body := Error "Missing required parameters" |})
  ∧ (∀ sy st en,
       symbols = Some sy → startDate = Some st → endDate = Some en →
       sy ≠ "" → st ≠ "" → en ≠ "" →
       ∃ data,
         GET symbols startDate endDate = {| status := 200; body := Data data |}
         ∧ length data
           = S (length (List.filter (Ascii.eqb ",")
                          (String.list_ascii_of_string sy)))).
Proof.
  split.
  - unfold GET. intros [-> | [-> | ->]]; [done | |].
    + by rewrite orb_true_r.
    + by rewrite orb_true_r.
  - intros sy st en -> -> -> Hsy Hst Hen.
    unfold GET, missing.
    rewrite !bool_decide_eq_false_2 by done. simpl.
    eexists. split; [done|].
    by rewrite fetchStockData_length, split_length.
Qed.

(** The request of [fetchData] for symbols and dates of plain characters is
    answered with [fetchStockData] of the symbols. *)
Lemma fetch_joined_symbols symbols startDate endDate :
  symbols ≠ [] →
  Forall (λ symbol, TickerSearch.includes symbol "," = false
                    ∧ Url.all Url.plain symbol = true) symbols →
  String.concat "," symbols ≠ "" →
  startDate ≠ "" → endDate ≠ "" →
  Url.all Url.plain startDate = true → Url.all Url.plain endDate = true →
  Fetch.fetch
    (Home.fetchData_url
       {| Home.query_symbols := String.concat "," symbols;
          Home.query_startDate := startDate;
          Home.query_endDate := endDate |})
  = {| status := 200;
       body := Data (YahooFinance.fetchStockData symbols startDate endDate) |}.
Proof.
  intros Hne Hsymbols Hjoined Hstart Hend Hstart_plain Hend_plain.
  assert (Url.all Url.plain (String.concat "," symbols) = true) as Hplain.
  { apply all_plain_concat. eapply Forall_impl; [exact Hsymbols|].
    by intros symbol [_ ?]. }
  unfold Fetch.fetch, Url.searchParams_get.
  rewrite searchParams_fetchData_url by done.
  cbn [List.find fst snd String.eqb Ascii.eqb Bool.eqb fmap option_fmap
         option_map Home.query_symbols Home.query_startDate
         Home.query_endDate].
  unfold GET, missing.
  rewrite !bool_decide_eq_false_2 by done. simpl.
  rewrite split_concat; [done | done |].
  eapply Forall_impl; [exact Hsymbols|]. by intros symbol [? _].
Qed.

(** X8.  The route undoes what [Home] does to the symbols.  [Home] joins
    the symbols with commas and puts them, with the two dates, into the URL
    as they are; the route reads the parameters of that URL and splits the
    symbols at the commas.  For a list of symbols that is not empty, whose
    symbols are not a single empty one and are made, like the two non-empty
    dates, of printable ASCII characters other than space, [#], [%], [&],
    [+] and, for the symbols, the comma, the answer is status 200 with
    [fetchStockData] of the very list, one series for each symbol. *)
Theorem GET_of_joined_symbols symbols startDate endDate :
  symbols ≠ [] →
  Forall (λ symbol, TickerSearch.includes symbol "," = false
                    ∧ Url.all Url.plain symbol = true) symbols →
  String.concat "," symbols ≠ "" →
  startDate ≠ "" → endDate ≠ "" →
  Url.all Url.plain startDate = true → Url.all Url.plain endDate = true →
  Fetch.fetch
    (Home.fetchData_url
       {| Home.query_symbols := String.concat "," symbols;
          Home.query_startDate := startDate;
          Home.query_endDate := endDate |})
  = {| status := 200;
       body := Data (YahooFinance.fetchStockData symbols startDate endDate) |}
  ∧ length (YahooFinance.fetchStockData symbols startDate endDate)
    = length symbols.
Proof.
  intros Hne Hsymbols Hjoined Hstart Hend Hstart_plain Hend_plain.
  split; [by apply fetch_joined_symbols | apply fetchStockData_length].
Qed.

End route.

(** ** The tooltip of the datasets of [chartData] *)

Section tooltip.
Import Tooltip.
Context `{parser : DateParser} `{format : NumberFormat}.

(** The points of a dataset, read back: each comes from a raw point with a
    close, and the first one from the point that gave the baseline. *)
Lemma dataset_points raw symbols startDate endDate i ds k cp :
  datasets (chartData raw symbols startDate endDate) !! i = Some ds →
  data ds !! k = Some cp →
  label ds = symbols !! i
  ∧ ∃ first base actual,
      data ds !! 0 = Some first
      ∧ originalY first = Some base
      ∧ originalY cp = Some actual
      ∧ y cp = Some (if bool_decide (symbols !! i = Some "USDJPY=X")
                     then actual else percentChange actual base).
Proof.
  intros (stockData & _ & ->)%chartData_lookup Hcp. split; [done|].
  revert Hcp. rewrite toDataset_data.
  set (valid := List.filter _ stockData).
  assert (∀ j point, valid !! j = Some point → is_Some (close point))
    as Hpresent.
  { intros j point Hj%list_elem_of_lookup_2.
    pose proof (validData_Forall (getTime startDate) (getTime endDate)
                  stockData) as Hall.
    rewrite Forall_forall in Hall.
    by apply Hall, inWindow_true in Hj as [? _]. }
  rewrite list_lookup_fmap.
  destruct (valid !! k) as [point|] eqn:Hk; [|done].
  intros [= <-].
  destruct (valid !! 0) as [point0|] eqn:H0.
  2:{ apply lookup_ge_None in H0. apply lookup_lt_Some in Hk. lia. }
  destruct (Hpresent 0 point0 H0) as [base Hbase].
  destruct (Hpresent k point Hk) as [actual Hactual].
  eexists _, base, actual.
  rewrite list_lookup_fmap, H0. simpl.
  split; [done|]. split; [done|]. split; [done|].
  rewrite Hactual, Hbase. simpl.
  by destruct (bool_decide _).
Qed.

(** X9.  For a dataset of [chartData] that is not the exchange rate, the
    label of the tooltip at a point shows the value at which the point is
    plotted: the percent change that the callback computes again, from the
    [originalY] of the point and of the first point, is the [y] of the
    point.  It is followed by the ratio of the two prices and by the
    price. *)
Theorem tooltip_shows_plotted_value raw symbols startDate endDate i ds k cp :
  datasets (chartData raw symbols startDate endDate) !! i = Some ds →
  symbols !! i ≠ Some "USDJPY=X" →
  data ds !! k = Some cp →
  ∃ first base actual value,
    data ds !! 0 = Some first
    ∧ originalY first = Some base
    ∧ originalY cp = Some actual
    ∧ y cp = Some value
    ∧ labelCallback ds k
      = Some (default "" (symbols !! i) +:+ ": " +:+ toFixed2 value
              +:+ "% (" +:+ toFixed2 (Number.div actual base)
              +:+ "x) $" +:+ toFixed2 actual).
Proof.
  intros Hds Hsym Hk.
  destruct (dataset_points raw symbols startDate endDate i ds k cp Hds Hk)
    as (Hlabel & first & base & actual & H0 & Hbase & Hactual & Hy).
  rewrite bool_decide_eq_false_2 in Hy by done.
  exists first, base, actual, (percentChange actual base).
  split; [done|]. split; [done|]. split; [done|]. split; [done|].
  unfold labelCallback. rewrite Hk, H0, Hlabel. simpl.
  rewrite Hactual, Hbase.
  rewrite bool_decide_eq_false_2; [done|].
  destruct (symbols !! i) as [symbol|]; simpl; [congruence | done].
Qed.

(** X10.  For the dataset of the exchange rate, the label shows the rate
    itself, which is the value plotted, after the yen sign; the text
    ['undefined'] of a missing value never appears. *)
Theorem tooltip_of_exchange_rate raw symbols startDate endDate i ds k cp :
  datasets (chartData raw symbols startDate endDate) !! i = Some ds →
  symbols !! i = Some "USDJPY=X" →
  data ds !! k = Some cp →
  ∃ rate,
    y cp = Some rate
    ∧ originalY cp = Some rate
    ∧ labelCallback ds k = Some ("USDJPY=X: ¥" +:+ toFixed2 rate).
Proof.
  intros Hds Hsym Hk.
  destruct (dataset_points raw symbols startDate endDate i ds k cp Hds Hk)
    as (Hlabel & first & base & actual & H0 & Hbase & Hactual & Hy).
  rewrite bool_decide_eq_true_2 in Hy by done.
  exists actual. split; [done|]. split; [done|].
  unfold labelCallback. rewrite Hk, H0, Hlabel, Hsym. simpl.
  by rewrite Hactual.
Qed.

End tooltip.

(** ** Where a percent series starts *)

Section baseline.
Context `{parser : DateParser}.

(** X11.  The first point of a dataset that is not the exchange rate is
    plotted at zero when its price is a finite number other than zero (at
    minus zero for a negative price). *)
Theorem baseline_plotted_at_zero raw symbols startDate endDate i ds cp
    sign m e :
  datasets (chartData raw symbols startDate endDate) !! i = Some ds →
  symbols !! i ≠ Some "USDJPY=X" →
  data ds !! 0 = Some cp →
  originalY cp = Some (S754_finite sign m e) →
  y cp = Some (S754_zero sign).
Proof.
  intros Hds Hsym Hcp Hprice.
  destruct (dataset_points raw symbols startDate endDate i ds 0 cp Hds Hcp)
    as (_ & first & base & actual & H0 & Hbase & Hactual & Hy).
  rewrite bool_decide_eq_false_2 in Hy by done.
  assert (first = cp) as -> by congruence.
  assert (base = S754_finite sign m e) as -> by congruence.
  assert (actual = S754_finite sign m e) as -> by congruence.
  by rewrite Hy, percentChange_self.
Qed.

End baseline.

(** ** The chart of the series given by symbol *)

Section series_by_symbol.
Import SeriesBySymbol.
Context `{parser : DateParser}.

Implicit Types (entries : list (string * list StockDataPoint)).
Implicit Types (stockData : list StockDataPoint).

Lemma chartData_by_symbol_lookup entries startDate endDate i symbol stockData :
  entries !! i = Some (symbol, stockData) →
  chartData entries startDate endDate !! i
  = Some (toDataset (getTime startDate) (getTime endDate) (symbol, stockData)).
Proof. intros Hi. unfold chartData. by rewrite list_lookup_fmap, Hi. Qed.

(** X12.  This chart keeps a point for every raw point inside the window,
    with or without a close, in the order of the series.  A point without
    a close has neither value nor [originalY]; a point with a close [c] is
    plotted at [(c - b) / b * 100] when the first point inside the window
    has a close [b]. *)
Theorem by_symbol_keeps_absent_points entries startDate endDate i symbol
    stockData :
  entries !! i = Some (symbol, stockData) →
  ∃ ds,
    chartData entries startDate endDate !! i = Some ds
    ∧ label ds = symbol
    ∧ (λ cp, (x cp, originalY cp)) <$> data ds
      = (λ point, (getTime (date point), close point))
        <$> List.filter
              (λ point,
                 Number.ge (getTime (date point)) (getTime startDate)
                 && Number.le (getTime (date point)) (getTime endDate))
              stockData
    ∧ (∀ cp, cp ∈ data ds → originalY cp = None → y cp = None)
    ∧ (∀ first b cp c,
         data ds !! 0 = Some first → originalY first = Some b →
         cp ∈ data ds → originalY cp = Some c →
         y cp = Some (Number.mul (Number.div (Number.sub c b) b)
                                 (Number.of_Z 100))).
Proof.
  intros Hi. eexists. split; [by apply chartData_by_symbol_lookup|].
  unfold toDataset. simpl.
  set (valid := List.filter _ stockData).
  split; [done|]. split; [by rewrite <- list_fmap_compose|]. split.
  - intros cp (point & -> & _)%list_elem_of_fmap. simpl. intros ->.
    by destruct (valid !! 0 ≫= close).
  - intros first b cp c Hfirst Hb (point & -> & _)%list_elem_of_fmap.
    rewrite list_lookup_fmap in Hfirst.
    destruct (valid !! 0) as [point0|]; [|done].
    simpl in *. injection Hfirst as <-. simpl in Hb.
    rewrite Hb. by intros ->.
Qed.

(** X13.  When the first raw point inside the window has no close, no point
    of the dataset has a value, whatever its own close is: the whole series
    is blank. *)
Theorem by_symbol_blank_without_baseline entries startDate endDate i symbol
    stockData first :
  entries !! i = Some (symbol, stockData) →
  List.filter (inRange (getTime startDate) (getTime endDate)) stockData !! 0
    = Some first →
  close first = None →
  ∃ ds,
    chartData entries startDate endDate !! i = Some ds
    ∧ length (data ds)
      = length (List.filter (inRange (getTime startDate) (getTime endDate))
                            stockData)
    ∧ ∀ cp, cp ∈ data ds → y cp = None.
Proof.
  intros Hi Hfirst Hclose.
  eexists. split; [by apply chartData_by_symbol_lookup|].
  unfold toDataset. simpl. rewrite Hfirst. simpl. rewrite Hclose.
  split; [by rewrite length_fmap|].
  by intros cp (point & -> & _)%list_elem_of_fmap.
Qed.

End series_by_symbol.

(** ** The list of symbols of the form *)

Section stock_form.
Import Ticker StockForm.

Implicit Types (st : State) (allTickers : list TickerItem).

Lemma filterIndexed_keep {A : Type} (l : list A) m k :
  m < k → filterIndexed (λ i _, negb (i =? m)) k l = l.
Proof.
  revert k. induction l as [|a l IH]; intros k Hlt; [done|].
  cbn [filterIndexed].
  replace (k =? m) with false by (symmetry; apply Nat.eqb_neq; lia).
  simpl. f_equal. apply IH. lia.
Qed.

(** The filter on the index takes out the element at that index, if any. *)
Lemma filterIndexed_delete {A : Type} (l : list A) index n :
  filterIndexed (λ i _, negb (i =? index + n)) n l = delete index l.
Proof.
  revert index n. induction l as [|a l IH]; intros index n; [done|].
  cbn [filterIndexed]. destruct index as [|index].
  - rewrite Nat.add_0_l, Nat.eqb_refl. simpl.
    apply filterIndexed_keep. lia.
  - replace (n =? S index + n) with false
      by (symmetry; apply Nat.eqb_neq; lia).
    simpl. f_equal.
    replace (S (index + n)) with (index + S n) by lia. apply IH.
Qed.

Lemma delete_past_end {A : Type} (l : list A) i :
  length l ≤ i → delete i l = l.
Proof.
  revert i. induction l as [|a l IH]; intros i Hi; [done|].
  destruct i as [|i]; simpl in *; [lia|]. f_equal. apply IH. lia.
Qed.

Lemma delete_appended {A : Type} (l : list A) a :
  delete (length l) (l ++ [a]) = l.
Proof. induction l as [|b l IH]; [done|]. simpl. by rewrite IH. Qed.



(** X15.  Removing at an index takes out the ticker at that index and no
    other: the symbols that remain are the symbols without the one at the
    index, in their order, also when a symbol occurs twice.  An index past
    the end removes nothing. *)
Theorem handleRemoveSymbol_at_index st index :
  ticker <$> selectedTickers st = symbols st →
  selectedTickers (handleRemoveSymbol index st)
  = delete index (selectedTickers st)
  ∧ symbols (handleRemoveSymbol index st) = delete index (symbols st)
  ∧ (index < length (symbols st) →
     S (length (symbols (handleRemoveSymbol index st)))
     = length (symbols st))
  ∧ (length (symbols st) ≤ index →
     symbols (handleRemoveSymbol index st) = symbols st).
Proof.
  intros Hst.
  assert (selectedTickers (handleRemoveSymbol index st)
          = delete index (selectedTickers st)) as Hselected.
  { unfold handleRemoveSymbol. simpl.
    rewrite <- (filterIndexed_delete (selectedTickers st) index 0).
    by rewrite Nat.add_0_r. }
  assert (symbols (handleRemoveSymbol index st) = delete index (symbols st))
    as Hsymbols.
  { change (symbols (handleRemoveSymbol index st))
      with (ticker <$> selectedTickers (handleRemoveSymbol index st)).
    rewrite Hselected, <- Hst. apply list_fmap_delete. }
  split; [done|]. split; [done|]. split.
  - intros Hlt. rewrite Hsymbols, length_delete; [lia|].
    by apply lookup_lt_is_Some_2.
  - intros Hge. rewrite Hsymbols. by apply delete_past_end.
Qed.

(** X16.  Removing the ticker that was just added gives back the symbols
    and the tickers there were. *)
Theorem select_then_remove st ticker' name' :
  ticker <$> selectedTickers st = symbols st →
  symbols (handleRemoveSymbol (length (symbols st))
             (handleTickerSelect ticker' name' st))
  = symbols st
  ∧ selectedTickers (handleRemoveSymbol (length (symbols st))
                       (handleTickerSelect ticker' name' st))
    = selectedTickers st.
Proof.
  intros Hst.
  assert (length (selectedTickers st) = length (symbols st)) as Hlen
    by by rewrite <- Hst, length_fmap.
  assert (selectedTickers (handleRemoveSymbol (length (symbols st))
                             (handleTickerSelect ticker' name' st))
          = selectedTickers st) as Hselected.
  { unfold handleRemoveSymbol, handleTickerSelect. simpl.
    rewrite <- (Nat.add_0_r (length (symbols st))), filterIndexed_delete.
    rewrite <- Hlen. apply delete_appended. }
  split; [|done].
  change (symbols (handleRemoveSymbol (length (symbols st))
                     (handleTickerSelect ticker' name' st)))
    with (ticker <$> selectedTickers
                       (handleRemoveSymbol (length (symbols st))
                          (handleTickerSelect ticker' name' st))).
  by rewrite Hselected.
Qed.

End stock_form.

(** ** The tickers offered by the search *)

Section ticker_search.
Import Ticker TickerSearch.
Context `{strings : StringRuntime}.

Implicit Types (tickers : list TickerItem) (searchText : string).

Lemma List_filter_sublist {A : Type} (f : A → bool) (l : list A) :
  List.filter f l `sublist_of` l.
Proof.
  induction l as [|a l IH]; [done|].
  simpl. destruct (f a); [by apply sublist_skip | by apply sublist_cons].
Qed.

(** X17.  The search offers at most a hundred tickers; they are tickers of
    the list, in the order of the list, and each of them has the search
    text, in lower case, in its ticker or in its name in lower case. *)
Theorem filteredTickers_bounded tickers searchText :
  length (filteredTickers tickers searchText) ≤ 100
  ∧ filteredTickers tickers searchText `sublist_of` tickers
  ∧ ∀ item, item ∈ filteredTickers tickers searchText →
      includes (toLowerCase (ticker item)) (toLowerCase searchText) = true
      ∨ includes (toLowerCase (name item)) (toLowerCase searchText) = true.
Proof.
  unfold filteredTickers. split; [|split].
  - rewrite length_take. lia.
  - etrans; [apply sublist_take | apply List_filter_sublist].
  - intros item Hitem.
    apply (elem_of_sublist _ (List.filter (matches searchText) tickers))
      in Hitem; [|apply sublist_take].
    apply list_elem_of_In, filter_In in Hitem as [_ Hmatch].
    by apply orb_true_iff in Hmatch.
Qed.

(** X18.  When fewer than a hundred tickers are offered, every ticker of
    the list that has the search text is among them. *)
Theorem filteredTickers_complete tickers searchText item :
  length (filteredTickers tickers searchText) < 100 →
  item ∈ tickers →
  includes (toLowerCase (ticker item)) (toLowerCase searchText) = true
  ∨ includes (toLowerCase (name item)) (toLowerCase searchText) = true →
  item ∈ filteredTickers tickers searchText.
Proof.
  unfold filteredTickers. intros Hlen Hitem Hmatch.
  rewrite length_take in Hlen.
  rewrite take_ge by lia.
  apply list_elem_of_In, filter_In. split; [by apply list_elem_of_In|].
  by apply orb_true_iff.
Qed.

End ticker_search.

(** ** What [Home] shows *)

Section home.
Import Home.
Context `{parser : DateParser} `{upstream : YahooFinance.Upstream}.

Implicit Types (st : State).

(** X19.  When [Home] shows the chart, the chart component does not return
    its message: it returns the chart, with one dataset for each series
    that [Home] holds, and [Home] does not show its own message.  When
    [Home] shows no chart, it shows its message unless it is loading. *)
Theorem home_chart_or_message chartHeight isDarkMode st :
  (∀ element,
     view_chart (view chartHeight isDarkMode st) = Some element →
     element
     = ChartContainer chartHeight (if isDarkMode then "#333" else "#fff")
         (chartData (stockData st) (symbols st) (startDate st) (endDate st))
         (options isDarkMode (startDate st) (endDate st) (showTooltip st))
     ∧ length (datasets (chartData (stockData st) (symbols st)
                           (startDate st) (endDate st)))
       = length (stockData st)
     ∧ view_noData (view chartHeight isDarkMode st) = false)
  ∧ (view_chart (view chartHeight isDarkMode st) = None →
     view_noData (view chartHeight isDarkMode st) = negb (isLoading st)).
Proof.
  unfold view. cbn [view_chart view_noData].
  destruct (stockData st) as [|series raw] eqn:Hraw.
  { split; [done|]. intros _. cbn. by rewrite andb_true_r. }
  destruct (symbols st) as [|sym syms] eqn:Hsymbols.
  { split; [done|]. intros _. cbn. by rewrite andb_true_r. }
  split; [|done]. intros element Helement.
  cbn [length Nat.ltb Nat.leb Nat.eqb andb orb] in *.
  injection Helement as <-.
  split; [done|]. split; [|by rewrite andb_false_r].
  by rewrite chartData_datasets, length_imap.
Qed.

(** X20.  [fetchData] sends nothing when there is no symbol or a date is
    empty.  A request that is rejected, or answered with a status outside
    200-299 (as the route does for a missing parameter), leaves the series
    as they were, so the chart of the earlier series stays, and sets the
    error message; loading is over. *)
Theorem fetchData_failure_keeps_series chartHeight isDarkMode st response :
  (fetchData_send st = None
   ↔ symbols st = [] ∨ startDate st = "" ∨ endDate st = "")
  ∧ (received response = None →
     stockData (fetchData_settle response st) = stockData st
     ∧ symbols (fetchData_settle response st) = symbols st
     ∧ isLoading (fetchData_settle response st) = false
     ∧ view_error (view chartHeight isDarkMode (fetchData_settle response st))
       = Some "Failed to fetch stock data. Please try again."
     ∧ view_chart (view chartHeight isDarkMode (fetchData_settle response st))
       = view_chart (view chartHeight isDarkMode st))
  ∧ (∀ symbols' startDate' endDate',
       StockDataRoute.missing symbols' = true
       ∨ StockDataRoute.missing startDate' = true
       ∨ StockDataRoute.missing endDate' = true →
       received (Some (StockDataRoute.GET symbols' startDate' endDate'))
       = None).
Proof.
  split; [|split].
  - unfold fetchData_send.
    destruct (symbols st) as [|sym syms]; simpl; [by split; auto|].
    destruct (decide (startDate st = "")) as [-> | Hstart];
      [by split; auto|].
    destruct (decide (endDate st = "")) as [-> | Hend].
    + rewrite orb_true_r. by split; auto.
    + rewrite !bool_decide_eq_false_2 by done. simpl.
      split; [done|]. by intros [? | [? | ?]].
  - intros Hfailed. unfold fetchData_settle, view. by rewrite Hfailed.
  - intros symbols' startDate' endDate' Hmissing.
    unfold StockDataRoute.GET.
    replace (_ || _ || _) with true; [done|].
    symmetry. destruct Hmissing as [-> | [-> | ->]];
      [done | by rewrite orb_true_r | by rewrite orb_true_r].
Qed.


End home.

(** ** The further properties on the sample inputs *)

Lemma findNextTradingDay_least_witness :
  (∃ point, point ∈ Samples.abc
            ∧ date point
              = TradingDay.findNextTradingDay Samples.abc "2024-01-02")
  ∧ ∀ point, point ∈ Samples.abc → String.le "2024-01-02" (date point) →
      String.le (TradingDay.findNextTradingDay Samples.abc "2024-01-02")
                (date point).
Proof.
  apply (findNextTradingDay_least Samples.abc "2024-01-02").
  exists (Samples.point "2024-01-03" 121). split; [|exact I].
  apply list_elem_of_further, list_elem_of_further, list_elem_of_here.
Defined.

Lemma findNextTradingDay_monotone_witness :
  String.le (TradingDay.findNextTradingDay Samples.abc_gap "2023-12-31")
            (TradingDay.findNextTradingDay Samples.abc_gap "2024-01-02").
Proof.
  apply (findNextTradingDay_monotone Samples.abc_gap "2023-12-31" "2024-01-02").
  exact I.
Defined.

Lemma fetchSingleStockData_points_witness :
  length (@SingleFetch.fetchSingleStockData Cases.runtime Cases.provider
            "ABC" Cases.day1 Cases.day2) = 2
  ∧ @SingleFetch.fetchSingleStockData Cases.runtime Cases.provider
      "ABC" Cases.day1 Cases.day2 !! 1
    = Some {| date := "2024-01-02"; close := None |}.
Proof.
  destruct (@fetchSingleStockData_points Cases.runtime Cases.provider
              "ABC" Cases.day1 Cases.day2
              [Some (Number.of_Z 100); None] [Cases.day1; Cases.day2])
    as [Hlen Hpoints].
  - reflexivity.
  - simpl. lia.
  - intros t [-> | [-> | []%elem_of_nil]%elem_of_cons]%elem_of_cons;
      eexists; vm_compute; reflexivity.
  - split; [exact Hlen|].
    destruct (Hpoints 1 Cases.day2 None eq_refl eq_refl) as (d & Hd & Hpoint).
    rewrite Hpoint. vm_compute in Hd. injection Hd as <-. reflexivity.
Defined.

Lemma fetchSingleStockData_all_or_nothing_witness :
  @SingleFetch.fetchSingleStockData Cases.runtime Cases.provider
    "SHORT" Cases.day1 Cases.day2 = [].
Proof.
  apply (@fetchSingleStockData_all_or_nothing Cases.runtime Cases.provider
           "SHORT" Cases.day1 Cases.day2).
  right; right.
  exists (Some [Some (Number.of_Z 100)]), [Cases.day1; Cases.day2].
  split; [reflexivity|].
  right; left. exists [Some (Number.of_Z 100)]. split; [reflexivity|].
  simpl. lia.
Defined.

Lemma failed_symbol_blank_witness :
  ∃ series,
    @YahooFinance.fetchStockData IsoDate.getTime
      (@SingleFetch.upstream Cases.runtime Cases.provider
         (Samples.day "1994-01-03"))
      ["ABC"; "ZZZ"] Samples.startDate Samples.endDate !! 1 = Some series
    ∧ Forall (λ point, close point = None) series.
Proof.
  destruct (@failed_symbol_blank IsoDate.getTime Cases.runtime Cases.provider
              (Samples.day "1994-01-03") ["ABC"; "ZZZ"]
              Samples.startDate Samples.endDate 1 "ZZZ")
    as (series & Hseries & Hnull & _); [reflexivity | reflexivity |].
  exists series. split; [exact Hseries | exact Hnull].
Defined.

Lemma GET_responses_witness :
  @StockDataRoute.GET IsoDate.getTime Samples.upstream
    None (Some Samples.startDate) (Some Samples.endDate)
  = {| StockDataRoute.status := 400;
       StockDataRoute.body :=
         StockDataRoute.Error "Missing required parameters" |}
  ∧ ∃ data,
      @StockDataRoute.GET IsoDate.getTime Samples.upstream
        (Some "ABC,,XYZ") (Some Samples.startDate) (Some Samples.endDate)
      = {| StockDataRoute.status := 200;
           StockDataRoute.body := StockDataRoute.Data data |}
      ∧ length data = 3.
Proof.
  split.
  - apply (@GET_responses IsoDate.getTime Samples.upstream
             None (Some Samples.startDate) (Some Samples.endDate)).
    left. reflexivity.
  - apply (proj2 (@GET_responses IsoDate.getTime Samples.upstream
                    (Some "ABC,,XYZ") (Some Samples.startDate)
                    (Some Samples.endDate))
             "ABC,,XYZ" Samples.startDate Samples.endDate);
      [reflexivity | reflexivity | reflexivity
      | discriminate | discriminate | discriminate].
Defined.

(** The request for [^GSPC] and [USDJPY=X] is answered with their two
    series. *)
Lemma GET_of_joined_symbols_witness :
  @Fetch.fetch IsoDate.getTime Samples.upstream
    "/api/stockData?symbols=^GSPC,USDJPY=X&startDate=2024-01-01&endDate=2024-01-03"
  = {| StockDataRoute.status := 200;
       StockDataRoute.body :=
         StockDataRoute.Data
           (@YahooFinance.fetchStockData IsoDate.getTime Samples.upstream
              ["^GSPC"; "USDJPY=X"] Samples.startDate Samples.endDate) |}
  ∧ length (@YahooFinance.fetchStockData IsoDate.getTime Samples.upstream
              ["^GSPC"; "USDJPY=X"] Samples.startDate Samples.endDate) = 2.
Proof.
  apply (@GET_of_joined_symbols IsoDate.getTime Samples.upstream
           ["^GSPC"; "USDJPY=X"] Samples.startDate Samples.endDate).
  - discriminate.
  - repeat constructor.
  - discriminate.
  - discriminate.
  - discriminate.
  - reflexivity.
  - reflexivity.
Defined.

(** Symbols that are not made of plain characters: at the [&] of [M&M.NS]
    the parameter ends, so that the route reads [USDJPY=X,M]; at the [#] of
    [A#B] the query ends, so that the route finds no dates and answers with
    status 400. *)
Example symbols_cut_by_the_URL :
  Url.searchParams_get
    (Home.fetchData_url
       {| Home.query_symbols := String.concat "," ["USDJPY=X"; "M&M.NS"];
          Home.query_startDate := Samples.startDate;
          Home.query_endDate := Samples.endDate |}) "symbols"
  = Some "USDJPY=X,M"
  ∧ StockDataRoute.status
      (@Fetch.fetch IsoDate.getTime Samples.upstream
         (Home.fetchData_url
            {| Home.query_symbols := String.concat "," ["A#B"];
               Home.query_startDate := Samples.startDate;
               Home.query_endDate := Samples.endDate |}))
    = 400.
Proof. split; vm_compute; reflexivity. Qed.

Lemma tooltip_shows_plotted_value_witness :
  ∃ first base actual value,
    data (Samples.dataset ["ABC"; "USDJPY=X"] 0 Samples.abc) !! 0 = Some first
    ∧ originalY first = Some base
    ∧ originalY (@toChartPoint IsoDate.getTime false (Number.of_Z 100)
                   (Samples.point "2024-01-02" 110)) = Some actual
    ∧ y (@toChartPoint IsoDate.getTime false (Number.of_Z 100)
           (Samples.point "2024-01-02" 110)) = Some value
    ∧ @Tooltip.labelCallback Cases.format
        (Samples.dataset ["ABC"; "USDJPY=X"] 0 Samples.abc) 1
      = Some (default "" (["ABC"; "USDJPY=X"] !! 0) +:+ ": "
              +:+ Cases.format value +:+ "% ("
              +:+ Cases.format (Number.div actual base)
              +:+ "x) $" +:+ Cases.format actual).
Proof.
  apply (@tooltip_shows_plotted_value IsoDate.getTime Cases.format
           [Samples.abc; Samples.usdjpy] ["ABC"; "USDJPY=X"]
           Samples.startDate Samples.endDate 0
           (Samples.dataset ["ABC"; "USDJPY=X"] 0 Samples.abc) 1).
  - reflexivity.
  - discriminate.
  - reflexivity.
Defined.

(** The label of the second point of [ABC], and of the exchange rate. *)
Example tooltip_labels :
  @Tooltip.labelCallback Cases.format
    (Samples.dataset ["ABC"; "USDJPY=X"] 0 Samples.abc) 1
  = Some "ABC: 10.00% (1.10x) $110.00"
  ∧ @Tooltip.labelCallback Cases.format
      (Samples.dataset ["ABC"; "USDJPY=X"] 1 Samples.usdjpy) 1
    = Some "USDJPY=X: ¥151.00".
Proof. split; vm_compute; reflexivity. Qed.

Lemma tooltip_of_exchange_rate_witness :
  ∃ rate,
    y (@toChartPoint IsoDate.getTime true (Number.of_Z 1)
         (Samples.point "2024-01-02" 151)) = Some rate
    ∧ originalY (@toChartPoint IsoDate.getTime true (Number.of_Z 1)
                   (Samples.point "2024-01-02" 151)) = Some rate
    ∧ @Tooltip.labelCallback Cases.format
        (Samples.dataset ["ABC"; "USDJPY=X"] 1 Samples.usdjpy) 1
      = Some ("USDJPY=X: ¥" +:+ Cases.format rate).
Proof.
  apply (@tooltip_of_exchange_rate IsoDate.getTime Cases.format
           [Samples.abc; Samples.usdjpy] ["ABC"; "USDJPY=X"]
           Samples.startDate Samples.endDate 1
           (Samples.dataset ["ABC"; "USDJPY=X"] 1 Samples.usdjpy) 1).
  - reflexivity.
  - reflexivity.
  - reflexivity.
Defined.

Lemma baseline_plotted_at_zero_witness :
  y (@toChartPoint IsoDate.getTime false (Number.of_Z 100)
       (Samples.point "2024-01-01" 100)) = Some (S754_zero false).
Proof.
  apply (@baseline_plotted_at_zero IsoDate.getTime
           [Samples.abc] ["ABC"] Samples.startDate Samples.endDate 0
           (Samples.dataset ["ABC"] 0 Samples.abc)
           (@toChartPoint IsoDate.getTime false (Number.of_Z 100)
              (Samples.point "2024-01-01" 100))
           false 7036874417766400 (-46)%Z).
  - reflexivity.
  - discriminate.
  - reflexivity.
  - reflexivity.
Defined.

Lemma by_symbol_keeps_absent_points_witness :
  ∃ ds,
    @SeriesBySymbol.chartData IsoDate.getTime [("ABC", Samples.abc_gap)]
      Samples.startDate Samples.endDate !! 0 = Some ds
    ∧ SeriesBySymbol.label ds = "ABC"
    ∧ length (SeriesBySymbol.data ds) = 3.
Proof.
  destruct (@by_symbol_keeps_absent_points IsoDate.getTime
              [("ABC", Samples.abc_gap)] Samples.startDate Samples.endDate
              0 "ABC" Samples.abc_gap)
    as (ds & Hds & Hlabel & Hpoints & _); [reflexivity|].
  exists ds. split; [exact Hds|]. split; [exact Hlabel|].
  rewrite <- (length_fmap (λ cp, (x cp, originalY cp))), Hpoints.
  reflexivity.
Defined.

Lemma by_symbol_blank_without_baseline_witness :
  ∃ ds,
    @SeriesBySymbol.chartData IsoDate.getTime [("ABC", Cases.late_start)]
      Samples.startDate Samples.endDate !! 0 = Some ds
    ∧ length (SeriesBySymbol.data ds) = 2
    ∧ ∀ cp, cp ∈ SeriesBySymbol.data ds → y cp = None.
Proof.
  destruct (@by_symbol_blank_without_baseline IsoDate.getTime
              [("ABC", Cases.late_start)] Samples.startDate Samples.endDate
              0 "ABC" Cases.late_start (Samples.absent "2024-01-01"))
    as (ds & Hds & Hlen & Hblank); [reflexivity | reflexivity | reflexivity |].
  exists ds. split; [exact Hds|]. split; [|exact Hblank].
  rewrite Hlen. reflexivity.
Defined.


Lemma handleRemoveSymbol_at_index_witness :
  StockForm.symbols (StockForm.handleRemoveSymbol 0 Cases.form) = ["AAPL"]
  ∧ StockForm.symbols (StockForm.handleRemoveSymbol 2 Cases.form)
    = ["USDJPY=X"; "AAPL"].
Proof.
  destruct (handleRemoveSymbol_at_index Cases.form 0) as (_ & Hremoved & _);
    [reflexivity|].
  destruct (handleRemoveSymbol_at_index Cases.form 2) as (_ & _ & _ & Hkept);
    [reflexivity|].
  split; [exact Hremoved|]. apply Hkept. simpl. lia.
Defined.

Lemma select_then_remove_witness :
  StockForm.symbols
    (StockForm.handleRemoveSymbol 2
       (StockForm.handleTickerSelect "^GSPC" "S&P 500" Cases.form))
  = ["USDJPY=X"; "AAPL"].
Proof.
  apply (select_then_remove Cases.form "^GSPC" "S&P 500"). reflexivity.
Defined.

Lemma filteredTickers_bounded_witness :
  length (@TickerSearch.filteredTickers Cases.strings Cases.tickers "Ap")
  ≤ 100
  ∧ ∀ item,
      item ∈ @TickerSearch.filteredTickers Cases.strings Cases.tickers "Ap" →
      TickerSearch.includes (Cases.strings (Ticker.ticker item)) "ap" = true
      ∨ TickerSearch.includes (Cases.strings (Ticker.name item)) "ap" = true.
Proof.
  destruct (@filteredTickers_bounded Cases.strings Cases.tickers "Ap")
    as (Hlen & _ & Hmatch).
  split; [exact Hlen | exact Hmatch].
Defined.

Lemma filteredTickers_complete_witness :
  {| Ticker.ticker := "AAPL"; Ticker.name := "Apple Inc." |}
  ∈ @TickerSearch.filteredTickers Cases.strings Cases.tickers "Ap".
Proof.
  apply (@filteredTickers_complete Cases.strings Cases.tickers "Ap").
  - vm_compute. lia.
  - apply list_elem_of_further, list_elem_of_here.
  - left. reflexivity.
Defined.

Lemma home_chart_or_message_witness :
  length (datasets (Samples.chart [Samples.abc] ["ABC"]
                      Samples.startDate Samples.endDate)) = 1
  ∧ Home.view_noData (@Home.view IsoDate.getTime "500px" false Cases.home)
    = false.
Proof.
  destruct (proj1 (@home_chart_or_message IsoDate.getTime "500px" false
                     Cases.home)
              (@render IsoDate.getTime [Samples.abc] ["ABC"]
                 Samples.startDate Samples.endDate true "500px" false)
              eq_refl) as (_ & Hlen & Hmessage).
  split; [exact Hlen | exact Hmessage].
Defined.

Lemma fetchData_failure_keeps_series_witness :
  Home.stockData (Home.fetchData_settle None Cases.home) = [Samples.abc]
  ∧ Home.view_error
      (@Home.view IsoDate.getTime "500px" false
         (Home.fetchData_settle None Cases.home))
    = Some "Failed to fetch stock data. Please try again.".
Proof.
  destruct (@fetchData_failure_keeps_series IsoDate.getTime Samples.upstream
              "500px" false Cases.home None)
    as (_ & Hfailed & _).
  destruct (Hfailed eq_refl) as (Hdata & _ & _ & Herror & _).
  split; [exact Hdata | exact Herror].
Defined.

